(** * Low-Power LCD Clock (LCDClock.ino): the tick handler and its renderers

    A shallow embedding of the 64 Hz interrupt service routine of the
    AVR128DA48 LCD clock, of the three renderers it calls and of the port
    registers they write, followed by the properties of the time keeping,
    of the AC drive and of the renderers.

    Target conventions (avr-gcc): [int] is 16 bits, [unsigned long] and
    [uint32_t] are 32 bits, [/] and [%] truncate towards zero.  Integers
    are modelled as [Z] with the wrap-around written out. *)

From Stdlib Require Import ZArith List Bool Lia.
From ExtLib Require Import Structures.Monad Structures.MonadState.
From ExtLib Require Import Data.Monads.StateMonad Data.Monads.OptionMonad.
Import ListNotations.
Import MonadNotation.
Local Open Scope monad_scope.
Local Open Scope Z_scope.

#[local] Existing Instance Monad_stateT.

(** ** Machine integers *)

Module Width.

(** Conversion to [uint8_t], [uint16_t], [uint32_t]. *)
Definition u8 (x : Z) : Z := x mod 2 ^ 8.
Definition u16 (x : Z) : Z := x mod 2 ^ 16.
Definition u32 (x : Z) : Z := x mod 2 ^ 32.

(** Conversion to the 16-bit [int] (two's complement). *)
Definition s16 (x : Z) : Z := (x + 2 ^ 15) mod 2 ^ 16 - 2 ^ 15.

End Width.
Import Width.

(** ** Seven segment definitions *)

Definition CharLen : Z := 15.

(** Bit order abcdefg, segment a in bit 6. *)
Definition Char : list Z :=
  [ 0x7E  (* 0b1111110  0 *)
  ; 0x30  (* 0b0110000  1 *)
  ; 0x6D  (* 0b1101101  2 *)
  ; 0x79  (* 0b1111001  3 *)
  ; 0x33  (* 0b0110011  4 *)
  ; 0x5B  (* 0b1011011  5 *)
  ; 0x5F  (* 0b1011111  6 *)
  ; 0x70  (* 0b1110000  7 *)
  ; 0x7F  (* 0b1111111  8 *)
  ; 0x7B  (* 0b1111011  9 *)
  ; 0x00  (* 0b0000000  10  Space *)
  ; 0x01  (* 0b0000001  11  '-' *)
  ; 0x63  (* 0b1100011  12  Degree *)
  ; 0x4E  (* 0b1001110  13  'C' *)
  ; 0x3E  (* 0b0111110  14  'V' *)
  ].

Definition Space : Z := 10.
Definition Minus : Z := 11.
Definition Degree : Z := 12.
Definition Celsius : Z := 13.
Definition Vee : Z := 14.

(** [Char[i]]: a read outside the [CharLen] entries of the table has no
    defined value, and is the one way a renderer can fail. *)
Definition Char_at (i : Z) : option Z :=
  if (0 <=? i) && (i <? CharLen) then nth_error Char (Z.to_nat i) else None.

(** ** Ports *)

Inductive Port : Type := PORTA | PORTB | PORTC | PORTD | PORTE | PORTF.

Definition Port_eqb (p q : Port) : bool :=
  match p, q with
  | PORTA, PORTA | PORTB, PORTB | PORTC, PORTC
  | PORTD, PORTD | PORTE, PORTE | PORTF, PORTF => true
  | _, _ => false
  end.

(** [PORT_t *Digit[4] = { &PORTD, &PORTC, &PORTA, &PORTB }] *)
Definition Digit (p : nat) : Port :=
  match p with
  | 0%nat => PORTD
  | 1%nat => PORTC
  | 2%nat => PORTA
  | _ => PORTB
  end.

(** Pin bit masks of <avr/io.h>: [PINn_bm = 1 << n]. *)
Definition PIN0_bm : Z := 0x01.
Definition PIN1_bm : Z := 0x02.
Definition PIN2_bm : Z := 0x04.
Definition PIN3_bm : Z := 0x08.
Definition PIN4_bm : Z := 0x10.
Definition PIN5_bm : Z := 0x20.

(** The two inputs the ADC multiplexer is switched between. *)
Inductive MuxPos : Type := ADC_MUXPOS_DACREF0_gc | ADC_MUXPOS_TEMPSENSE_gc.

Definition ADC_ENABLE_bm : Z := 0x01.

(** Register writes, in the order the handler performs them. *)
Inductive IOEvent : Type :=
| WriteOUT (p : Port) (v : Z)        (* [p.OUT = v] *)
| WriteOUTTGL (p : Port) (m : Z)     (* [p.OUTTGL = m] *)
| Convert (m : MuxPos).              (* one ADC conversion of input [m] *)

(** ** State

    The two static variables of the handler, the OUT registers of the six
    ports, the ADC registers the renderers set, and the log of register
    writes (oldest first). *)
Record State : Type := mkState
  { cycles : Z
  ; halfsecs : Z
  ; PORTA_OUT : Z
  ; PORTB_OUT : Z
  ; PORTC_OUT : Z
  ; PORTD_OUT : Z
  ; PORTE_OUT : Z
  ; PORTF_OUT : Z
  ; ADC0_MUXPOS : MuxPos
  ; ADC0_CTRLA : Z
  ; trace : list IOEvent
  }.

(** Power-on: statics are zero, OUT registers are zero; [ADCSetup] selects
    DACREF0. *)
Definition power_on : State :=
  mkState 0 0 0 0 0 0 0 0 ADC_MUXPOS_DACREF0_gc 0 [].

(** What a build and a device fix: the [TWELVEHOUR] macro and the two
    calibration words of the signature row. *)
Record Device : Type := mkDevice
  { TWELVEHOUR : bool
  ; SIGROW_TEMPSENSE0 : Z
  ; SIGROW_TEMPSENSE1 : Z
  }.

(** What the hardware presents during one invocation of the handler: the
    level of PORTE.IN (taken as stable while the handler runs) and the
    result the ADC delivers for each multiplexer input. *)
Record Tick : Type := mkTick
  { PORTE_IN : Z
  ; RES_DACREF0 : Z
  ; RES_TEMPSENSE : Z
  }.

Definition ADC0_RES (t : Tick) (m : MuxPos) : Z :=
  match m with
  | ADC_MUXPOS_DACREF0_gc => RES_DACREF0 t
  | ADC_MUXPOS_TEMPSENSE_gc => RES_TEMPSENSE t
  end.

(** ** The monad of the handler: state over failure *)

Definition M : Type -> Type := stateT State option.

Definition exec {A} (m : M A) (s : State) : option State :=
  match runStateT m s with
  | Some (_, s') => Some s'
  | None => None
  end.

Definition get_OUT (p : Port) (s : State) : Z :=
  match p with
  | PORTA => PORTA_OUT s | PORTB => PORTB_OUT s | PORTC => PORTC_OUT s
  | PORTD => PORTD_OUT s | PORTE => PORTE_OUT s | PORTF => PORTF_OUT s
  end.

Definition set_OUT (p : Port) (v : Z) (s : State) : State :=
  match s with
  | mkState c h a b cc d e f mx ct tr =>
    match p with
    | PORTA => mkState c h v b cc d e f mx ct tr
    | PORTB => mkState c h a v cc d e f mx ct tr
    | PORTC => mkState c h a b v d e f mx ct tr
    | PORTD => mkState c h a b cc v e f mx ct tr
    | PORTE => mkState c h a b cc d v f mx ct tr
    | PORTF => mkState c h a b cc d e v mx ct tr
    end
  end.

Definition log (e : IOEvent) (s : State) : State :=
  match s with
  | mkState c h a b cc d e' f mx ct tr => mkState c h a b cc d e' f mx ct (tr ++ [e])
  end.

Definition set_cycles (v : Z) (s : State) : State :=
  match s with
  | mkState _ h a b cc d e f mx ct tr => mkState v h a b cc d e f mx ct tr
  end.

Definition set_halfsecs (v : Z) (s : State) : State :=
  match s with
  | mkState c _ a b cc d e f mx ct tr => mkState c v a b cc d e f mx ct tr
  end.

Definition set_MUXPOS (v : MuxPos) (s : State) : State :=
  match s with
  | mkState c h a b cc d e f _ ct tr => mkState c h a b cc d e f v ct tr
  end.

Definition set_CTRLA (v : Z) (s : State) : State :=
  match s with
  | mkState c h a b cc d e f mx _ tr => mkState c h a b cc d e f mx v tr
  end.

(** [p.OUT = v] *)
Definition OUT (p : Port) (v : Z) : M unit :=
  modify (fun s => log (WriteOUT p v) (set_OUT p v s)) ;; ret tt.

(** [p.OUTTGL = m]: the bits of [m] are inverted in [p.OUT]. *)
Definition OUTTGL (p : Port) (m : Z) : M unit :=
  modify (fun s => log (WriteOUTTGL p m) (set_OUT p (Z.lxor (get_OUT p s) m) s)) ;;
  ret tt.

(** [Char[i]] inside the handler. *)
Definition CharM (i : Z) : M Z :=
  match Char_at i with
  | Some c => ret c
  | None => mkStateT (fun _ => None)
  end.

(** One conversion of the selected input: enable the ADC, start, wait for
    completion, read [ADC0.RES] into a [uint16_t].  The wait is the
    hardware's; the result is the one [t] holds for the selected input. *)
Definition convert (t : Tick) : M Z :=
  modify (set_CTRLA ADC_ENABLE_bm) ;;
  s <- get ;;
  modify (log (Convert (ADC0_MUXPOS s))) ;;
  let adc_reading := u16 (ADC0_RES t (ADC0_MUXPOS s)) in
  ret adc_reading.

(** [for (int p=0; p<n; p++) body(p)] *)
Fixpoint for_upto (n : nat) (body : nat -> M unit) : M unit :=
  match n with
  | O => ret tt
  | S k => for_upto k body ;; body k
  end.

(** ** Display Temperature *)

(** [abs] is not defined in the sketch: it is the macro of the Arduino
    core header that every sketch is built with,
    [#define abs(x) ((x)>0?(x):-(x))].  Its operand here is a [uint32_t],
    so the comparison and the negation are unsigned. *)
Definition abs (x : Z) : Z := if 0 <? x then x else u32 (- x).

(** [uint32_t kelvin = ((uint32_t)(offset - adc_reading) * slope + 0x0800) >> 12;]
    The subtraction is done on the two [uint16_t] operands, then widened. *)
Definition kelvin_of (offset slope adc_reading : Z) : Z :=
  Z.shiftr (u32 (u32 (u16 (offset - adc_reading) * slope) + 0x0800)) 12.

(** [int celsius = abs(kelvin - 273);]  The difference is a [uint32_t]
    and so is the value of the macro; the assignment converts it to the
    16-bit [int]. *)
Definition celsius_of (kelvin : Z) : Z :=
  s16 (abs (u32 (kelvin - 273))).

Definition DisplayTemp (d : Device) (t : Tick) : M unit :=
  let offset := u16 (SIGROW_TEMPSENSE1 d) in
  let slope := u16 (SIGROW_TEMPSENSE0 d) in
  modify (set_MUXPOS ADC_MUXPOS_TEMPSENSE_gc) ;;
  adc_reading <- convert t ;;
  let kelvin := kelvin_of offset slope adc_reading in
  let celsius := celsius_of kelvin in
  modify (set_CTRLA 0) ;;
  (if kelvin <? 273
   then c <- CharM Minus ;; OUT (Digit 0) c
   else c <- CharM (Z.quot celsius 10) ;; OUT (Digit 0) c) ;;
  c <- CharM (Z.rem celsius 10) ;; OUT (Digit 1) c ;;
  c <- CharM Degree ;; OUT (Digit 2) c ;;
  units <- CharM Celsius ;;
  OUT (Digit 3) units ;;
  OUT PORTF (Z.land (Z.shiftr units 1) PIN5_bm).

(** ** Display Voltage *)

Definition DisplayVoltage (t : Tick) : M unit :=
  modify (set_MUXPOS ADC_MUXPOS_DACREF0_gc) ;;
  adc_reading <- convert t ;;
  let voltage := u16 (adc_reading / 50) in
  modify (set_CTRLA 0) ;;
  c <- CharM Space ;; OUT (Digit 0) c ;;
  c <- CharM (voltage / 10) ;; OUT (Digit 1) (Z.lor c 0x80) ;;
  c <- CharM (voltage mod 10) ;; OUT (Digit 2) c ;;
  units <- CharM Vee ;;
  OUT (Digit 3) units ;;
  OUT PORTF (Z.land (Z.shiftr units 1) PIN5_bm).

(** ** Display Time *)

Definition DisplayTime (d : Device) (halfsecs : Z) : M unit :=
  let minutes := u8 ((halfsecs / 120) mod 60) in
  let hours :=
    if TWELVEHOUR d
    then u8 ((halfsecs / 7200) mod 12 + 1)
    else u8 ((halfsecs / 7200) mod 24) in
  c <- CharM (hours / 10) ;; OUT (Digit 0) c ;;
  c <- CharM (hours mod 10) ;; OUT (Digit 1) c ;;
  c <- CharM (minutes / 10) ;; OUT (Digit 2) c ;;
  units <- CharM (minutes mod 10) ;;
  OUT (Digit 3) units ;;
  let colon := u8 (Z.shiftl (Z.land halfsecs 1) 4) in
  OUT PORTF (Z.lor (Z.land (Z.shiftr units 1) PIN5_bm) colon).

(** ** Buttons *)

Definition MinsButton (t : Tick) : bool := Z.land (PORTE_IN t) PIN2_bm =? 0.
Definition HoursButton (t : Tick) : bool := Z.land (PORTE_IN t) PIN3_bm =? 0.

(** ** Interrupt Service Routine at 64Hz *)

(** [halfsecs = (halfsecs+1) % 172800;] on an [unsigned long]. *)
Definition advance (h : Z) : Z := u32 (h + 1) mod 172800.

(** [halfsecs = ((halfsecs/7200)*60 + (halfsecs/120 + 1)%60)*120;] *)
Definition mins_adjust (h : Z) : Z :=
  u32 (u32 (u32 (h / 7200 * 60) + u32 (h / 120 + 1) mod 60) * 120).

(** [halfsecs = halfsecs + 7200;] *)
Definition hours_adjust (h : Z) : Z := u32 (h + 7200).

(** The handler.  Clearing the interrupt flag ([RTC.PITINTFLAGS]) touches
    nothing the handler reads and is left out. *)
Definition ISR (d : Device) (t : Tick) : M unit :=
  (* Toggle segments *)
  for_upto 4 (fun p => OUTTGL (Digit p) 0xFF) ;;
  OUTTGL PORTE (Z.lor PIN0_bm PIN1_bm) ;;
  OUTTGL PORTF (Z.lor PIN5_bm PIN4_bm) ;;
  modify (fun s => set_cycles (u8 (cycles s + 1)) s) ;;
  s <- get ;;
  if cycles s <? 32 then ret tt else
  modify (set_cycles 0) ;;
  (* Update time *)
  modify (fun s => set_halfsecs (advance (halfsecs s)) s) ;;
  s <- get ;;
  let ticks := u8 (halfsecs s mod 120) in
  (if MinsButton t
   then modify (fun s => set_halfsecs (mins_adjust (halfsecs s)) s) ;; ret tt
   else ret tt) ;;
  (if HoursButton t
   then modify (fun s => set_halfsecs (hours_adjust (halfsecs s)) s) ;; ret tt
   else ret tt) ;;
  s <- get ;;
  if MinsButton t || HoursButton t || (ticks <? 108) then DisplayTime d (halfsecs s)
  else if ticks =? 108 then DisplayVoltage t
  else if ticks =? 114 then DisplayTemp d t
  else ret tt.

(** One invocation of the handler, and a sequence of them. *)
Definition tick (d : Device) (t : Tick) (s : State) : option State :=
  exec (ISR d t) s.

Fixpoint run (d : Device) (ts : list Tick) (s : State) : option State :=
  match ts with
  | [] => Some s
  | t :: ts' =>
    match tick d t s with
    | Some s' => run d ts' s'
    | None => None
    end
  end.


(** ** Vocabulary of the properties *)

(** The four digit slots, in display order, and the auxiliary port. *)
Definition slots (s : State) : list Z :=
  [get_OUT (Digit 0) s; get_OUT (Digit 1) s; get_OUT (Digit 2) s; get_OUT (Digit 3) s].

Definition patterns (s : State) : list Z := slots s ++ [PORTF_OUT s].

(** What the display shows: a segment is on while its line and the common
    PE0 are at different levels; on the auxiliary port only PF5 and PF4
    are driven. *)
Definition lit (s : State) : list Z :=
  let com := Z.testbit (PORTE_OUT s) 0 in
  map (fun v => Z.lxor v (if com then 0xFF else 0)) (slots s)
  ++ [Z.lxor (PORTF_OUT s) (if com then 0x30 else 0)].

(** The glyph of a symbol of the table. *)
Definition glyph (i : Z) : Z := nth (Z.to_nat i) Char 0.

Definition in_table (i : Z) : bool := (0 <=? i) && (i <? CharLen).

(** The values the two measuring renderers compute from a tick. *)
Definition voltage_of (t : Tick) : Z := u16 (u16 (RES_DACREF0 t) / 50).

Definition tick_kelvin (d : Device) (t : Tick) : Z :=
  kelvin_of (u16 (SIGROW_TEMPSENSE1 d)) (u16 (SIGROW_TEMPSENSE0 d)) (u16 (RES_TEMPSENSE t)).

Definition tick_celsius (d : Device) (t : Tick) : Z := celsius_of (tick_kelvin d t).

(** The readings of a tick can be shown: every table read of the voltage
    and of the temperature renderer is inside the table. *)
Definition displayable (d : Device) (t : Tick) : bool :=
  in_table (voltage_of t / 10)
  && in_table (Z.rem (tick_celsius d t) 10)
  && ((tick_kelvin d t <? 273) || in_table (Z.quot (tick_celsius d t) 10)).

Definition no_button (t : Tick) : bool := negb (MinsButton t) && negb (HoursButton t).

(** A sequence of absolute writes, and the inversions that open every
    invocation of the handler. *)
Definition write (s : State) (w : Port * Z) : State :=
  log (WriteOUT (fst w) (snd w)) (set_OUT (fst w) (snd w) s).

Definition writes (ws : list (Port * Z)) (s : State) : State := fold_left write ws s.

Definition toggle (s : State) (w : Port * Z) : State :=
  log (WriteOUTTGL (fst w) (snd w))
      (set_OUT (fst w) (Z.lxor (get_OUT (fst w) s) (snd w)) s).

Definition phase_toggles : list (Port * Z) :=
  [(PORTD, 0xFF); (PORTC, 0xFF); (PORTA, 0xFF); (PORTB, 0xFF);
   (PORTE, 0x03); (PORTF, 0x30)].

Definition toggled (s : State) : State := fold_left toggle phase_toggles s.

Definition toggle_events : list IOEvent :=
  map (fun w => WriteOUTTGL (fst w) (snd w)) phase_toggles.

(** The ADC registers and the log after one conversion of input [m]. *)
Definition converted (m : MuxPos) (s : State) : State :=
  set_CTRLA 0 (log (Convert m) (set_CTRLA ADC_ENABLE_bm (set_MUXPOS m s))).

(** The handler returns on this tick whatever the phase index: the
    readings can be shown, or a button forces the time renderer. *)
Definition shown (d : Device) (t : Tick) : bool :=
  displayable d t || MinsButton t || HoursButton t.

(** A display line is a pin of a port.  The driven lines: the eight pins
    of each digit port, the two commons PE0 and PE1, and PF4, PF5. *)
Definition Line : Type := (Port * Z)%type.

Definition driven_lines : list Line :=
  flat_map (fun p => map (fun b => (Digit p, b)) [0; 1; 2; 3; 4; 5; 6; 7])
           [0%nat; 1%nat; 2%nat; 3%nat]
  ++ [(PORTE, 0); (PORTE, 1); (PORTF, 4); (PORTF, 5)].

(** Does this register write invert that line? *)
Definition inverts (l : Line) (e : IOEvent) : bool :=
  match e with
  | WriteOUTTGL p m => Port_eqb p (fst l) && Z.testbit m (snd l)
  | _ => false
  end.

(** How often a log inverts a line. *)
Definition inversions (l : Line) (tr : list IOEvent) : nat :=
  length (filter (inverts l) tr).

Definition is_toggle (e : IOEvent) : bool :=
  match e with WriteOUTTGL _ _ => true | _ => false end.

(** A log without inversions. *)
Definition quiet (evs : list IOEvent) : bool :=
  forallb (fun e => negb (is_toggle e)) evs.

(** The log of one invocation: the six inversions, then writes that invert
    nothing. *)
Definition tick_log (evs : list IOEvent) : Prop :=
  exists rest, evs = toggle_events ++ rest /\ quiet rest = true.

(** [s'] differs from [s] in digit and auxiliary patterns, ADC registers
    and appended non-inverting writes only. *)
Definition frames (s s' : State) : Prop :=
  cycles s' = cycles s /\ halfsecs s' = halfsecs s /\
  PORTE_OUT s' = PORTE_OUT s /\
  exists rest, trace s' = trace s ++ rest /\ quiet rest = true.

(** The renderer selection as the specification words it: a function of
    the phase index and the two button flags, first match wins. *)
Inductive Renderer : Type :=
| TimeRenderer | VoltageRenderer | TemperatureRenderer | NoRenderer.

Definition select_renderer (phase : Z) (mins hours : bool) : Renderer :=
  if mins || hours then TimeRenderer
  else if phase <? 108 then TimeRenderer
  else if phase =? 108 then VoltageRenderer
  else if phase =? 114 then TemperatureRenderer
  else NoRenderer.

Definition render (d : Device) (t : Tick) (r : Renderer) (s : State) : option State :=
  match r with
  | TimeRenderer => exec (DisplayTime d (halfsecs s)) s
  | VoltageRenderer => exec (DisplayVoltage t) s
  | TemperatureRenderer => exec (DisplayTemp d t) s
  | NoRenderer => Some s
  end.

(** The time of day the renderer selection sees on a half-second boundary:
    advanced, then adjusted by the buttons. *)
Definition adjusted (t : Tick) (h : Z) : Z :=
  let h1 := advance h in
  let h2 := if MinsButton t then mins_adjust h1 else h1 in
  if HoursButton t then hours_adjust h2 else h2.

(** The hour and the minute the time renderer shows. *)
Definition shown_hours (d : Device) (h : Z) : Z :=
  if TWELVEHOUR d then (h / 7200) mod 12 + 1 else (h / 7200) mod 24.

Definition shown_minutes (h : Z) : Z := (h / 120) mod 60.

(** Components of a time of day. *)
Definition unit_in_minute (h : Z) : Z := h mod 120.
Definition minute_of (h : Z) : Z := (h / 120) mod 60.
Definition hour_block (h : Z) : Z := h / 7200.

(** Sample devices and ticks. *)
Definition dev24 : Device := mkDevice false 1200 2000.
Definition dev12 : Device := mkDevice true 1200 2000.
Definition released : Tick := mkTick 0x0C 1650 983.
Definition mins_held : Tick := mkTick 0x08 1650 983.
Definition hours_held : Tick := mkTick 0x04 1650 983.
Definition both_held : Tick := mkTick 0x00 1650 983.

(** ** Port setup *)

(** The data direction registers of the six ports (a set bit makes the pin
    an output). *)
Record Dirs : Type := mkDirs
  { PORTA_DIR : Z
  ; PORTB_DIR : Z
  ; PORTC_DIR : Z
  ; PORTD_DIR : Z
  ; PORTE_DIR : Z
  ; PORTF_DIR : Z
  }.

Definition get_DIR (p : Port) (r : Dirs) : Z :=
  match p with
  | PORTA => PORTA_DIR r | PORTB => PORTB_DIR r | PORTC => PORTC_DIR r
  | PORTD => PORTD_DIR r | PORTE => PORTE_DIR r | PORTF => PORTF_DIR r
  end.

Definition set_DIR (p : Port) (v : Z) (r : Dirs) : Dirs :=
  match r with
  | mkDirs a b c d e f =>
    match p with
    | PORTA => mkDirs v b c d e f
    | PORTB => mkDirs a v c d e f
    | PORTC => mkDirs a b v d e f
    | PORTD => mkDirs a b c v e f
    | PORTE => mkDirs a b c d v f
    | PORTF => mkDirs a b c d e v
    end
  end.

(** [PortSetup]: all pins of the four digit ports, PE0 and PE1, PF5 and
    PF4 become outputs. *)
Definition PortSetup (r : Dirs) : Dirs :=
  let r := fold_left (fun r p => set_DIR (Digit p) 0xFF r)
                     [0%nat; 1%nat; 2%nat; 3%nat] r in
  let r := set_DIR PORTE (Z.lor PIN0_bm PIN1_bm) r in
  set_DIR PORTF (Z.lor PIN5_bm PIN4_bm) r.

(** ** More vocabulary *)

(** The half-second update of the time of day for given button flags. *)
Definition adjust (mins hours : bool) (h : Z) : Z :=
  let h1 := advance h in
  let h2 := if mins then mins_adjust h1 else h1 in
  if hours then hours_adjust h2 else h2.

(** The ticks of a run all present these button flags, with readings that
    can be shown. *)
Definition held (d : Device) (mins hours : bool) (t : Tick) : bool :=
  shown d t && Bool.eqb (MinsButton t) mins && Bool.eqb (HoursButton t) hours.

(** The ADC conversions of a log, by multiplexer input. *)
Definition conversions (tr : list IOEvent) : list MuxPos :=
  flat_map (fun e => match e with Convert m => [m] | _ => [] end) tr.

(** The conversion the renderer selection asks for. *)
Definition selected_conversion (r : Renderer) : list MuxPos :=
  match r with
  | VoltageRenderer => [ADC_MUXPOS_DACREF0_gc]
  | TemperatureRenderer => [ADC_MUXPOS_TEMPSENSE_gc]
  | _ => []
  end.

(** * Proofs *)

Ltac zdiv := Z.to_euclidean_division_equations; lia.

Section Table.

Lemma in_table_iff i : in_table i = true <-> 0 <= i < CharLen.
Proof. unfold in_table, CharLen. lia. Qed.

Lemma Char_at_glyph i : in_table i = true -> Char_at i = Some (glyph i).
Proof.
  intros H. unfold Char_at. fold (in_table i). rewrite H.
  apply in_table_iff in H. unfold CharLen in H.
  apply nth_error_nth'. cbn. lia.
Qed.

Lemma Char_at_outside i : in_table i = false -> Char_at i = None.
Proof. intros H. unfold Char_at. fold (in_table i). now rewrite H. Qed.

End Table.

Section Views.

Variables (d : Device) (t : Tick) (s : State).

Lemma DisplayTime_eq h :
  exec (DisplayTime d h) s =
  let minutes := u8 ((h / 120) mod 60) in
  let hours :=
    if TWELVEHOUR d then u8 ((h / 7200) mod 12 + 1) else u8 ((h / 7200) mod 24) in
  match Char_at (hours / 10), Char_at (hours mod 10),
        Char_at (minutes / 10), Char_at (minutes mod 10) with
  | Some c0, Some c1, Some c2, Some units =>
    Some (writes [(PORTD, c0); (PORTC, c1); (PORTA, c2); (PORTB, units);
                  (PORTF, Z.lor (Z.land (Z.shiftr units 1) PIN5_bm)
                                (u8 (Z.shiftl (Z.land h 1) 4)))] s)
  | _, _, _, _ => None
  end.
Proof.
  unfold DisplayTime, exec, CharM. cbv zeta.
  repeat (destruct (Char_at _); [|reflexivity]).
  reflexivity.
Qed.

Lemma DisplayVoltage_eq :
  exec (DisplayVoltage t) s =
  let voltage := voltage_of t in
  match Char_at (voltage / 10), Char_at (voltage mod 10) with
  | Some c1, Some c2 =>
    Some (writes [(PORTD, glyph Space); (PORTC, Z.lor c1 0x80); (PORTA, c2);
                  (PORTB, glyph Vee); (PORTF, 0)]
                 (converted ADC_MUXPOS_DACREF0_gc s))
  | _, _ => None
  end.
Proof.
  destruct s. unfold DisplayVoltage, exec, CharM, voltage_of. cbv zeta.
  cbn -[Z.div Z.modulo u16 Char_at].
  repeat (destruct (Char_at (_ _ _)); [|reflexivity]).
  reflexivity.
Qed.

Lemma DisplayTemp_eq :
  exec (DisplayTemp d t) s =
  let kelvin := tick_kelvin d t in
  let celsius := tick_celsius d t in
  match (if kelvin <? 273 then Char_at Minus else Char_at (Z.quot celsius 10)),
        Char_at (Z.rem celsius 10) with
  | Some c0, Some c1 =>
    Some (writes [(PORTD, c0); (PORTC, c1); (PORTA, glyph Degree);
                  (PORTB, glyph Celsius); (PORTF, 0x20)]
                 (converted ADC_MUXPOS_TEMPSENSE_gc s))
  | _, _ => None
  end.
Proof.
  destruct s. unfold DisplayTemp, exec, CharM, tick_celsius, tick_kelvin. cbv zeta.
  cbn -[Z.div Z.modulo Z.quot Z.rem u16 Char_at kelvin_of celsius_of Z.ltb].
  destruct (_ <? 273).
  - cbn -[Z.div Z.modulo Z.quot Z.rem u16 Char_at kelvin_of celsius_of Z.ltb].
    destruct (Char_at (Z.rem _ _)); reflexivity.
  - destruct (Char_at (Z.quot _ _)); [|reflexivity].
    cbn -[Z.div Z.modulo Z.quot Z.rem u16 Char_at kelvin_of celsius_of Z.ltb].
    destruct (Char_at (Z.rem _ _)); reflexivity.
Qed.

End Views.

(** ** What a renderer leaves alone *)

Lemma Some_eq {A} (x y : A) : Some x = Some y -> x = y.
Proof. congruence. Qed.

Ltac from_Some := let H := fresh in intros H; apply Some_eq in H; subst.

Section Frames.

Lemma frames_refl s : frames s s.
Proof.
  repeat split. exists []. now rewrite app_nil_r.
Qed.

Lemma frames_trans s1 s2 s3 : frames s1 s2 -> frames s2 s3 -> frames s1 s3.
Proof.
  intros (c1 & h1 & e1 & r1 & t1 & q1) (c2 & h2 & e2 & r2 & t2 & q2).
  repeat split; try congruence.
  exists (r1 ++ r2). split.
  - rewrite t2, t1. now rewrite app_assoc.
  - unfold quiet in *. rewrite forallb_app. now rewrite q1, q2.
Qed.

Lemma frames_write s p v : p <> PORTE -> frames s (write s (p, v)).
Proof.
  intros Hp. destruct s, p; try congruence;
    (repeat split; eexists; split; reflexivity).
Qed.

Lemma frames_converted m s : frames s (converted m s).
Proof.
  destruct s. repeat split. exists [Convert m]. split; reflexivity.
Qed.

Lemma frames_writes ws : forall s,
  Forall (fun w => fst w <> PORTE) ws -> frames s (writes ws s).
Proof.
  induction ws as [|[p v] ws IH]; intros s H.
  - apply frames_refl.
  - inversion H as [|? ? Hp Hws]; subst. cbn [writes fold_left].
    eapply frames_trans; [apply frames_write, Hp | apply IH, Hws].
Qed.

Ltac not_PORTE := repeat constructor; cbn; discriminate.

Lemma DisplayTime_frames d h s s' :
  exec (DisplayTime d h) s = Some s' -> frames s s'.
Proof.
  rewrite DisplayTime_eq. cbv zeta.
  repeat (destruct (Char_at _); [|discriminate]).
  from_Some. apply frames_writes. not_PORTE.
Qed.

Lemma DisplayVoltage_frames t s s' :
  exec (DisplayVoltage t) s = Some s' -> frames s s'.
Proof.
  rewrite DisplayVoltage_eq. cbv zeta.
  repeat (destruct (Char_at _); [|discriminate]).
  from_Some. eapply frames_trans; [apply frames_converted|].
  apply frames_writes. not_PORTE.
Qed.

Lemma DisplayTemp_frames d t s s' :
  exec (DisplayTemp d t) s = Some s' -> frames s s'.
Proof.
  rewrite DisplayTemp_eq. cbv zeta.
  destruct (if _ <? 273 then _ else _); [|discriminate].
  destruct (Char_at _); [|discriminate].
  from_Some. eapply frames_trans; [apply frames_converted|].
  apply frames_writes. not_PORTE.
Qed.

Lemma render_frames d t r s s' : render d t r s = Some s' -> frames s s'.
Proof.
  destruct r; cbn [render].
  - apply DisplayTime_frames.
  - apply DisplayVoltage_frames.
  - apply DisplayTemp_frames.
  - from_Some. apply frames_refl.
Qed.

End Frames.

(** ** When a renderer returns *)

Section Totality.

Lemma DisplayTime_total d h s : exists s', exec (DisplayTime d h) s = Some s'.
Proof.
  rewrite DisplayTime_eq. cbv zeta.
  assert (Hm : forall x, in_table (u8 (x mod 60) / 10) = true
                         /\ in_table (u8 (x mod 60) mod 10) = true).
  { intros x. rewrite !in_table_iff. unfold u8, CharLen. split; zdiv. }
  assert (Hh : forall x, let hours := if TWELVEHOUR d then u8 (x mod 12 + 1)
                                      else u8 (x mod 24) in
                         in_table (hours / 10) = true
                         /\ in_table (hours mod 10) = true).
  { intros x. destruct (TWELVEHOUR d); cbv zeta; rewrite !in_table_iff;
      unfold u8, CharLen; split; zdiv. }
  destruct (Hm (h / 120)) as [m1 m2]. destruct (Hh (h / 7200)) as [h1 h2].
  cbv zeta in h1, h2.
  rewrite (Char_at_glyph _ h1), (Char_at_glyph _ h2).
  rewrite (Char_at_glyph _ m1), (Char_at_glyph _ m2).
  eexists. reflexivity.
Qed.

Lemma DisplayVoltage_total t s :
  in_table (voltage_of t / 10) = true ->
  exists s', exec (DisplayVoltage t) s = Some s'.
Proof.
  intros H. rewrite DisplayVoltage_eq. cbv zeta.
  rewrite (Char_at_glyph _ H).
  assert (H2 : in_table (voltage_of t mod 10) = true).
  { rewrite in_table_iff. unfold CharLen. zdiv. }
  rewrite (Char_at_glyph _ H2). eexists. reflexivity.
Qed.

Lemma DisplayTemp_total d t s :
  in_table (Z.rem (tick_celsius d t) 10) = true ->
  (tick_kelvin d t <? 273) || in_table (Z.quot (tick_celsius d t) 10) = true ->
  exists s', exec (DisplayTemp d t) s = Some s'.
Proof.
  intros H1 H0. rewrite DisplayTemp_eq. cbv zeta.
  generalize dependent (tick_celsius d t). intros c H1 H0.
  generalize dependent (tick_kelvin d t). intros k H0.
  rewrite (Char_at_glyph _ H1).
  destruct (k <? 273).
  - rewrite (Char_at_glyph Minus eq_refl). eexists. reflexivity.
  - cbn [orb] in H0. rewrite (Char_at_glyph _ H0). eexists. reflexivity.
Qed.

Lemma render_total d t r s :
  displayable d t = true \/ r = TimeRenderer \/ r = NoRenderer ->
  exists s', render d t r s = Some s'.
Proof.
  intros H. destruct r; cbn [render].
  - apply DisplayTime_total.
  - destruct H as [H|[H|H]]; try discriminate.
    unfold displayable in H. apply andb_prop in H as [H _].
    apply andb_prop in H as [H _]. now apply DisplayVoltage_total.
  - destruct H as [H|[H|H]]; try discriminate.
    unfold displayable in H. apply andb_prop in H as [H H0].
    apply andb_prop in H as [_ H1]. now apply DisplayTemp_total.
  - eexists. reflexivity.
Qed.

End Totality.

(** ** One invocation of the handler *)

Section Handler.

Variables (d : Device) (t : Tick).

Lemma phase_index h : u8 (advance h mod 120) = advance h mod 120.
Proof. unfold u8. zdiv. Qed.

(** The handler, read off its definition: the inversions, then either
    the early return or the half-second work. *)
Lemma tick_eq s :
  tick d t s =
  if u8 (cycles s + 1) <? 32
  then Some (set_cycles (u8 (cycles s + 1)) (toggled s))
  else render d t
         (select_renderer (advance (halfsecs s) mod 120)
                          (MinsButton t) (HoursButton t))
         (set_halfsecs (adjusted t (halfsecs s)) (set_cycles 0 (toggled s))).
Proof.
  rewrite <- phase_index.
  destruct s as [c h a b cc dd e f mx ct tr].
  unfold tick, exec, ISR, select_renderer, adjusted, render.
  cbn -[Z.add Z.mul Z.ltb Z.eqb u8 advance mins_adjust hours_adjust
        DisplayTime DisplayTemp DisplayVoltage Z.lxor Z.modulo].
  destruct (u8 (c + 1) <? 32); [reflexivity|].
  destruct (MinsButton t), (HoursButton t);
    cbn -[Z.add Z.mul Z.ltb Z.eqb u8 advance mins_adjust hours_adjust
          DisplayTime DisplayTemp DisplayVoltage Z.lxor Z.modulo];
    try reflexivity.
  destruct (_ <? 108); [reflexivity|].
  destruct (_ =? 108); [reflexivity|].
  destruct (_ =? 114); reflexivity.
Qed.

Lemma toggled_facts s :
  cycles (toggled s) = cycles s /\ halfsecs (toggled s) = halfsecs s /\
  PORTE_OUT (toggled s) = Z.lxor (PORTE_OUT s) 3 /\
  trace (toggled s) = trace s ++ toggle_events.
Proof.
  destruct s. cbn -[Z.lxor]. repeat split.
  now rewrite <- !app_assoc.
Qed.

Lemma select_shown h :
  shown d t = true ->
  displayable d t = true
  \/ select_renderer h (MinsButton t) (HoursButton t) = TimeRenderer
  \/ select_renderer h (MinsButton t) (HoursButton t) = NoRenderer.
Proof.
  unfold shown, select_renderer.
  destruct (displayable d t); [now left|].
  destruct (MinsButton t), (HoursButton t); cbn; intros H;
    try discriminate; right; now left.
Qed.

(** What every invocation does to the statics, to the commons and to
    the log. *)
Lemma tick_step s :
  shown d t = true ->
  exists s',
    tick d t s = Some s'
    /\ cycles s' = (if u8 (cycles s + 1) <? 32 then u8 (cycles s + 1) else 0)
    /\ halfsecs s' = (if u8 (cycles s + 1) <? 32 then halfsecs s
                      else adjusted t (halfsecs s))
    /\ PORTE_OUT s' = Z.lxor (PORTE_OUT s) 3
    /\ exists evs, trace s' = trace s ++ evs /\ tick_log evs.
Proof.
  intros Hs. rewrite tick_eq.
  destruct (toggled_facts s) as (Tc & Th & Te & Tt).
  destruct (u8 (cycles s + 1) <? 32).
  - eexists. split; [reflexivity|].
    destruct s; cbn -[Z.lxor u8 Z.add] in *. repeat split.
    exists toggle_events. split; [now rewrite <- !app_assoc|].
    exists []. split; reflexivity.
  - set (r := select_renderer _ _ _).
    set (s2 := set_halfsecs _ _).
    destruct (render_total d t r s2) as [s' Hr].
    { apply select_shown, Hs. }
    exists s'. split; [exact Hr|].
    apply render_frames in Hr. destruct Hr as (Fc & Fh & Fe & rest & Ft & Fq).
    assert (E : cycles s2 = 0 /\ halfsecs s2 = adjusted t (halfsecs s)
                /\ PORTE_OUT s2 = Z.lxor (PORTE_OUT s) 3
                /\ trace s2 = trace s ++ toggle_events).
    { subst s2. destruct s; cbn -[Z.lxor u8 Z.add adjusted] in *.
      repeat split. now rewrite <- !app_assoc. }
    destruct E as (Ec & Eh & Ee & Et).
    repeat split; try congruence.
    exists (toggle_events ++ rest). split.
    + rewrite Ft, Et. now rewrite app_assoc.
    + exists rest. now split.
Qed.

End Handler.

(** ** Arithmetic of the time of day *)

Section TimeOfDay.

Lemma advance_range h : 0 <= advance h < 172800.
Proof. unfold advance. zdiv. Qed.

Lemma advance_eq h : 0 <= h < 180000 -> advance h = (h + 1) mod 172800.
Proof. intros H. unfold advance, u32. zdiv. Qed.

Lemma mins_adjust_eq h :
  0 <= h < 172800 ->
  mins_adjust h = (h / 7200 * 60 + (h / 120 + 1) mod 60) * 120.
Proof. intros H. unfold mins_adjust, u32. zdiv. Qed.

Lemma mins_adjust_facts h :
  0 <= h < 172800 ->
  0 <= mins_adjust h < 172800
  /\ unit_in_minute (mins_adjust h) = 0
  /\ minute_of (mins_adjust h) = (minute_of h + 1) mod 60
  /\ hour_block (mins_adjust h) = hour_block h.
Proof.
  intros H. rewrite mins_adjust_eq by exact H.
  unfold unit_in_minute, minute_of, hour_block. repeat split; zdiv.
Qed.

Lemma hours_adjust_eq h : 0 <= h < 172800 -> hours_adjust h = h + 7200.
Proof. intros H. unfold hours_adjust, u32. zdiv. Qed.

Lemma adjusted_range t h :
  0 <= adjusted t h < 180000
  /\ (HoursButton t = false -> adjusted t h < 172800).
Proof.
  unfold adjusted. pose proof (advance_range h) as Ha.
  assert (H2 : 0 <= (if MinsButton t then mins_adjust (advance h) else advance h)
               < 172800).
  { destruct (MinsButton t); [|exact Ha]. now apply mins_adjust_facts. }
  destruct (HoursButton t).
  - rewrite hours_adjust_eq by exact H2. split; [lia|discriminate].
  - split; [lia|]. intros _. lia.
Qed.

End TimeOfDay.

(** ** Counting inversions in a log *)

Section Inversions.

Variable l : Line.

Lemma inversions_app tr1 tr2 :
  inversions l (tr1 ++ tr2) = (inversions l tr1 + inversions l tr2)%nat.
Proof. unfold inversions. now rewrite filter_app, length_app. Qed.

Lemma inversions_quiet evs : quiet evs = true -> inversions l evs = 0%nat.
Proof.
  unfold inversions, quiet. induction evs as [|e evs IH]; [reflexivity|].
  cbn [forallb filter]. intros H. apply andb_prop in H as [He Hq].
  destruct e; cbn in He; try discriminate; cbn [inverts]; now apply IH.
Qed.

Hypothesis driven : In l driven_lines.

Lemma inversions_toggle_events : inversions l toggle_events = 1%nat.
Proof.
  revert driven. generalize l. apply Forall_forall.
  unfold driven_lines. cbn. repeat constructor.
Qed.

Lemma inversions_tick_log evs : tick_log evs -> inversions l evs = 1%nat.
Proof.
  intros (rest & -> & Hq).
  rewrite inversions_app, inversions_toggle_events.
  now rewrite (inversions_quiet _ Hq).
Qed.

Lemma inversions_concat segs :
  Forall tick_log segs -> inversions l (concat segs) = length segs.
Proof.
  induction 1 as [|evs segs He _ IH]; [reflexivity|].
  cbn [concat length]. rewrite inversions_app, IH.
  now rewrite (inversions_tick_log _ He).
Qed.

End Inversions.

(** ** Sequences of invocations *)

Section Runs.

Variable d : Device.

Lemma run_app ts1 ts2 s :
  run d (ts1 ++ ts2) s =
  match run d ts1 s with Some s1 => run d ts2 s1 | None => None end.
Proof.
  revert s. induction ts1 as [|t ts1 IH]; intros s; [reflexivity|].
  cbn [run app]. destruct (tick d t s); [apply IH | reflexivity].
Qed.

(** A run whose readings can be shown returns; the statics stay in
    range, the commons alternate, and the log is one [tick_log] per
    invocation. *)
Lemma run_shown ts : forall s,
  forallb (shown d) ts = true ->
  exists s',
    run d ts s = Some s'
    /\ PORTE_OUT s' = Nat.iter (length ts) (fun x => Z.lxor x 3) (PORTE_OUT s)
    /\ exists segs, trace s' = trace s ++ concat segs
                    /\ length segs = length ts /\ Forall tick_log segs.
Proof.
  induction ts as [|t ts IH]; intros s H.
  - exists s. repeat split. exists []. cbn. now rewrite app_nil_r.
  - cbn [forallb] in H. apply andb_prop in H as [Ht Hts].
    destruct (tick_step d t s Ht) as (s1 & E1 & _ & _ & Pe & evs & Tr & Lg).
    destruct (IH s1 Hts) as (s' & E' & Pe' & segs & Tr' & Ln & Fa).
    exists s'. cbn [run]. rewrite E1. split; [exact E'|]. split.
    + rewrite Pe', Pe. cbn [length]. now rewrite Nat.iter_succ_r.
    + exists (evs :: segs). cbn [concat length]. repeat split.
      * rewrite Tr', Tr. now rewrite app_assoc.
      * now rewrite Ln.
      * now constructor.
Qed.

Lemma toggle_twice x : Z.lxor (Z.lxor x 3) 3 = x.
Proof. now rewrite Z.lxor_assoc, Z.lxor_nilpotent, Z.lxor_0_r. Qed.

Lemma commons_parity n x :
  Nat.iter n (fun x => Z.lxor x 3) x = if Nat.even n then x else Z.lxor x 3.
Proof.
  induction n as [n IH] using (well_founded_induction Wf_nat.lt_wf).
  destruct n as [|[|n]]; [reflexivity..|].
  rewrite !Nat.iter_succ, toggle_twice. cbn [Nat.even]. apply IH. lia.
Qed.

(** The statics of a run: every invocation keeps them in range. *)
Lemma tick_range t s s' :
  0 <= halfsecs s < 180000 -> tick d t s = Some s' ->
  0 <= cycles s' < 32 /\ 0 <= halfsecs s' < 180000.
Proof.
  intros Hh. rewrite tick_eq.
  destruct (toggled_facts s) as (Tc & Th & _ & _).
  destruct (u8 (cycles s + 1) <? 32) eqn:E.
  - from_Some. destruct s; cbn -[u8 Z.add Z.lxor] in *.
    split; [|lia]. unfold u8 in *. zdiv.
  - intros Hr. apply render_frames in Hr as (Fc & Fh & _).
    rewrite Fc, Fh. destruct s; cbn -[u8 Z.add Z.lxor adjusted] in *.
    split; [lia|]. apply adjusted_range.
Qed.

End Runs.

(** ** Time keeping while no button is held *)

Section Released.

Variable d : Device.

Lemma adjusted_released t h : no_button t = true -> adjusted t h = advance h.
Proof.
  unfold no_button, adjusted.
  destruct (MinsButton t), (HoursButton t); cbn; congruence.
Qed.

Lemma tick_released t s :
  no_button t && displayable d t = true ->
  0 <= cycles s < 32 -> 0 <= halfsecs s < 180000 ->
  exists s',
    tick d t s = Some s'
    /\ cycles s' = (cycles s + 1) mod 32
    /\ halfsecs s' = (if cycles s + 1 <? 32 then halfsecs s
                      else (halfsecs s + 1) mod 172800).
Proof.
  intros H Hc Hh. apply andb_prop in H as [Hb Hd].
  assert (Hs : shown d t = true) by (unfold shown; now rewrite Hd).
  destruct (tick_step d t s Hs) as (s' & E & Ec & Eh & _).
  exists s'. split; [exact E|].
  rewrite adjusted_released, advance_eq in Eh by assumption.
  assert (U : u8 (cycles s + 1) = cycles s + 1) by (unfold u8; zdiv).
  rewrite U in Ec, Eh. split.
  - rewrite Ec. destruct (Z.ltb_spec (cycles s + 1) 32); zdiv.
  - exact Eh.
Qed.

(** After [n] invocations the sub-second counter has advanced by [n]
    modulo 32 and the time of day by the number of boundaries crossed. *)
Lemma run_released ts : forall s,
  forallb (fun t => no_button t && displayable d t) ts = true ->
  0 <= cycles s < 32 -> 0 <= halfsecs s < 180000 ->
  let n := Z.of_nat (length ts) in
  exists s',
    run d ts s = Some s'
    /\ cycles s' = (cycles s + n) mod 32
    /\ halfsecs s' = (if cycles s + n <? 32 then halfsecs s
                      else (halfsecs s + (cycles s + n) / 32) mod 172800).
Proof.
  induction ts as [|t ts IH]; intros s H Hc Hh n.
  - exists s. subst n. cbn [length Z.of_nat run]. rewrite Z.add_0_r.
    repeat split; [zdiv|]. destruct (Z.ltb_spec (cycles s) 32); [reflexivity|lia].
  - cbn [forallb] in H. apply andb_prop in H as [Ht Hts].
    destruct (tick_released t s Ht Hc Hh) as (s1 & E1 & C1 & H1).
    assert (Hc1 : 0 <= cycles s1 < 32) by (rewrite C1; zdiv).
    assert (Hh1 : 0 <= halfsecs s1 < 180000).
    { rewrite H1. destruct (_ <? 32); [lia | zdiv]. }
    destruct (IH s1 Hts Hc1 Hh1) as (s' & E' & C' & H').
    exists s'. cbn [run]. rewrite E1. split; [exact E'|].
    assert (Hn : n = 1 + Z.of_nat (length ts)) by (subst n; cbn [length]; lia).
    set (m := Z.of_nat (length ts)) in *.
    assert (0 <= m) by (subst m; lia).
    rewrite C', H', C1, H1, Hn. clear - Hc Hh H. split; [zdiv|].
    destruct (Z.ltb_spec (cycles s + 1) 32);
      destruct (Z.ltb_spec ((cycles s + 1) mod 32 + m) 32);
      destruct (Z.ltb_spec (cycles s + (1 + m)) 32); zdiv.
Qed.

End Released.

(** * The claims *)

(** ** Renderer selection *)

Section Selection.

Variables (d : Device) (t : Tick).

Lemma render_patterns r s s' :
  halfsecs s' = halfsecs s -> patterns s' = patterns s ->
  option_map patterns (render d t r s') = option_map patterns (render d t r s).
Proof.
  intros Hh Hp. destruct r; cbn [render].
  - rewrite Hh, !DisplayTime_eq. cbv zeta.
    repeat (destruct (Char_at _); [|reflexivity]).
    destruct s, s'. reflexivity.
  - rewrite !DisplayVoltage_eq. cbv zeta.
    repeat (destruct (Char_at _); [|reflexivity]).
    destruct s, s'. reflexivity.
  - rewrite !DisplayTemp_eq. cbv zeta.
    destruct (if _ <? 273 then _ else _); [|reflexivity].
    destruct (Char_at _); [|reflexivity].
    destruct s, s'. reflexivity.
  - cbn [option_map]. now rewrite Hp.
Qed.

Lemma toggled_patterns s s' :
  patterns s' = patterns s -> patterns (toggled s') = patterns (toggled s).
Proof.
  destruct s, s'. cbn -[Z.lxor]. intros [= -> -> -> -> ->]. reflexivity.
Qed.

Lemma lit_toggled s : lit (toggled s) = lit s.
Proof.
  destruct s as [c h a b cc dd e f mx ct tr]. unfold lit.
  cbn -[Z.lxor Z.testbit].
  rewrite Z.lxor_spec. change (Z.testbit 3 0) with true.
  destruct (Z.testbit e 0); cbn [xorb negb];
    rewrite ?Z.lxor_0_r; rewrite <- ?Z.lxor_assoc;
    rewrite ?(Z.lxor_assoc _ 255 255), ?(Z.lxor_assoc _ 48 48);
    rewrite ?Z.lxor_nilpotent, ?Z.lxor_0_r; reflexivity.
Qed.

End Selection.

(** C1. On a half-second boundary the handler runs the renderer that
    [select_renderer] picks from the phase index (the advanced time of day
    modulo 120, taken before the button adjustments) and the two button
    flags: a button selects the time renderer, otherwise a phase index
    below 108 selects it, 108 selects the voltage renderer, 114 the
    temperature renderer, and any other value runs none, leaving what the
    display shows as it was.  Two invocations on states with the same time
    of day and the same patterns produce the same patterns. *)
Theorem renderer_selection (d : Device) (t : Tick) (s s' : State) :
  cycles s = 31 -> cycles s' = 31 ->
  halfsecs s' = halfsecs s -> patterns s' = patterns s ->
  let phase := advance (halfsecs s) mod 120 in
  let r := select_renderer phase (MinsButton t) (HoursButton t) in
  let s2 := set_halfsecs (adjusted t (halfsecs s)) (set_cycles 0 (toggled s)) in
  tick d t s = render d t r s2
  /\ render d t NoRenderer s2 = Some s2
  /\ lit s2 = lit s
  /\ option_map patterns (tick d t s') = option_map patterns (tick d t s).
Proof.
  intros Hc Hc' Hh Hp phase r s2.
  assert (B : forall x, cycles x = 31 -> (u8 (cycles x + 1) <? 32) = false).
  { intros x ->. reflexivity. }
  repeat split.
  - rewrite tick_eq, (B s Hc). reflexivity.
  - rewrite <- (lit_toggled s). subst s2. destruct s. reflexivity.
  - rewrite !tick_eq, (B s Hc), (B s' Hc'), Hh.
    apply render_patterns.
    + destruct s, s'. reflexivity.
    + pose proof (toggled_patterns s s' Hp) as Ht.
      destruct (toggled s), (toggled s'). exact Ht.
Qed.

Lemma renderer_selection_witness :
  cycles (set_cycles 31 power_on) = 31
  /\ tick dev24 released (set_cycles 31 power_on)
     = render dev24 released TimeRenderer
         (set_halfsecs 1 (set_cycles 0 (toggled (set_cycles 31 power_on)))).
Proof.
  split; [reflexivity|].
  exact (proj1 (renderer_selection dev24 released (set_cycles 31 power_on)
                  (set_cycles 31 power_on) eq_refl eq_refl eq_refl eq_refl)).
Defined.

(** ** Time keeping *)

Lemma forallb_firstn {A} (f : A -> bool) k l :
  forallb f l = true -> forallb f (firstn k l) = true.
Proof.
  revert k. induction l as [|a l IH]; intros [|k] H; try reflexivity.
  cbn [forallb firstn] in *. apply andb_prop in H as [Ha Hl].
  now rewrite Ha, IH.
Qed.









(** C5, as the code has it.  On a half-second boundary the hours
    adjustment is applied whenever the hours button is asserted, after the
    minutes snap and whether or not the minutes button is asserted too;
    it adds exactly 7200 units, without wrapping, and leaves the minute
    and the unit within the minute as they were. *)
Theorem hours_button_adds_7200 (d : Device) (t : Tick) (s : State) :
  cycles s = 31 -> HoursButton t = true ->
  let h1 := advance (halfsecs s) in
  let h2 := if MinsButton t then mins_adjust h1 else h1 in
  exists s',
    tick d t s = Some s'
    /\ halfsecs s' = h2 + 7200
    /\ halfsecs s' mod 7200 = h2 mod 7200
    /\ minute_of (halfsecs s') = minute_of h2
    /\ unit_in_minute (halfsecs s') = unit_in_minute h2.
Proof.
  intros Hc Hh h1 h2.
  assert (Hs : shown d t = true).
  { unfold shown. rewrite Hh. now rewrite orb_true_r. }
  destruct (tick_step d t s Hs) as (s' & E & _ & Eh & _).
  exists s'. split; [exact E|].
  rewrite Hc in Eh. change (u8 (31 + 1) <? 32) with false in Eh.
  unfold adjusted in Eh. rewrite Hh in Eh. fold h1 h2 in Eh.
  assert (R : 0 <= h2 < 172800).
  { subst h2. pose proof (advance_range (halfsecs s)) as Ha. fold h1 in Ha.
    destruct (MinsButton t); [now apply mins_adjust_facts | exact Ha]. }
  rewrite hours_adjust_eq in Eh by exact R.
  rewrite Eh. unfold minute_of, unit_in_minute. repeat split; zdiv.
Qed.

Lemma hours_button_adds_7200_witness :
  exists s',
    tick dev24 both_held (set_cycles 31 power_on) = Some s'
    /\ halfsecs s' = mins_adjust (advance 0) + 7200
    /\ halfsecs s' mod 7200 = mins_adjust (advance 0) mod 7200
    /\ minute_of (halfsecs s') = minute_of (mins_adjust (advance 0))
    /\ unit_in_minute (halfsecs s') = unit_in_minute (mins_adjust (advance 0)).
Proof.
  apply (hours_button_adds_7200 dev24 both_held (set_cycles 31 power_on)).
  - reflexivity.
  - reflexivity.
Defined.

(** C5 as stated fails: with both buttons held for the 32 invocations
    after power-on, the boundary applies the minutes snap (to 120) and the
    hours adjustment as well, ending at 7320 where an else-if would have
    left 120. *)
Lemma hours_button_else_if_counterexample :
  MinsButton both_held = true
  /\ exists s',
       run dev24 (repeat both_held 32) power_on = Some s'
       /\ halfsecs s' = 7320
       /\ mins_adjust (advance (halfsecs power_on)) = 120
       /\ halfsecs s' <> mins_adjust (advance (halfsecs power_on)).
Proof.
  split; [reflexivity|].
  eexists. split; [vm_compute; reflexivity|].
  repeat split. cbn. discriminate.
Qed.

(** ** AC drive *)



(** ** Time renderer *)

Lemma DisplayTime_slots d h s :
  exists s',
    exec (DisplayTime d h) s = Some s'
    /\ slots s' = map glyph [shown_hours d h / 10; shown_hours d h mod 10;
                             shown_minutes h / 10; shown_minutes h mod 10].
Proof.
  rewrite DisplayTime_eq. cbv zeta.
  replace (u8 ((h / 120) mod 60)) with (shown_minutes h)
    by (unfold shown_minutes, u8; zdiv).
  replace (if TWELVEHOUR d then u8 ((h / 7200) mod 12 + 1) else u8 ((h / 7200) mod 24))
    with (shown_hours d h)
    by (unfold shown_hours, u8; destruct (TWELVEHOUR d); zdiv).
  assert (Hh : 0 <= shown_hours d h < 24)
    by (unfold shown_hours; destruct (TWELVEHOUR d); zdiv).
  assert (Hm : 0 <= shown_minutes h < 60) by (unfold shown_minutes; zdiv).
  rewrite !Char_at_glyph by (apply in_table_iff; unfold CharLen; zdiv).
  eexists. split; [reflexivity|]. destruct s. reflexivity.
Qed.

(** C7, as the code has it.  The time renderer shows the hour of the
    build's policy in slots 0 and 1 and the minute in slots 2 and 3.  In
    24-hour mode the hour is the hour block modulo 24: time of day 0 shows
    00 00 and 94200 (13:05) shows 13 05.  In 12-hour mode the hour is the
    hour block modulo 12, plus 1: it stays in 1..12, hour block 0 shows as
    01, and 94200 shows 02 05. *)
Theorem time_renderer_hours (slope offset h : Z) (s : State) :
  let d24 := mkDevice false slope offset in
  let d12 := mkDevice true slope offset in
  let shows d h l :=
    exists s', exec (DisplayTime d h) s = Some s' /\ slots s' = map glyph l in
  shows d24 h [((h / 7200) mod 24) / 10; ((h / 7200) mod 24) mod 10;
               ((h / 120) mod 60) / 10; ((h / 120) mod 60) mod 10]
  /\ shows d12 h [((h / 7200) mod 12 + 1) / 10; ((h / 7200) mod 12 + 1) mod 10;
                  ((h / 120) mod 60) / 10; ((h / 120) mod 60) mod 10]
  /\ 1 <= (h / 7200) mod 12 + 1 <= 12
  /\ shows d24 0 [0; 0; 0; 0]
  /\ shows d24 94200 [1; 3; 0; 5]
  /\ shows d12 94200 [0; 2; 0; 5]
  /\ shows d12 0 [0; 1; 0; 0].
Proof.
  intros d24 d12 shows. subst shows. cbv beta.
  split; [apply (DisplayTime_slots d24 h s)|].
  split; [apply (DisplayTime_slots d12 h s)|].
  split; [zdiv|].
  split; [apply (DisplayTime_slots d24 0 s)|].
  split; [apply (DisplayTime_slots d24 94200 s)|].
  split; [apply (DisplayTime_slots d12 94200 s)|].
  apply (DisplayTime_slots d12 0 s).
Qed.

(** C7 as stated fails in 12-hour mode: 13:05 is shown as 02 05, not
    01 05, and hour 0 as 01, not 12. *)
Lemma time_renderer_12_hour_counterexample :
  (exists s',
     exec (DisplayTime dev12 94200) power_on = Some s'
     /\ slots s' = map glyph [0; 2; 0; 5]
     /\ slots s' <> map glyph [0; 1; 0; 5])
  /\ (exists s',
        exec (DisplayTime dev12 0) power_on = Some s'
        /\ slots s' = map glyph [0; 1; 0; 0]
        /\ slots s' <> map glyph [1; 2; 0; 0]).
Proof.
  split; eexists; (split; [vm_compute; reflexivity|]);
    (split; [reflexivity | vm_compute; discriminate]).
Qed.

(** ** Temperature renderer *)

Section Conversion.

Lemma product_fits a b :
  0 <= a < 2 ^ 16 -> 0 <= b < 2 ^ 16 -> 0 <= a * b <= 65535 * 65535.
Proof. intros Ha Hb. nia. Qed.

Lemma kelvin_of_eq offset slope sample :
  0 <= slope < 2 ^ 16 ->
  let delta := (offset - sample) mod 2 ^ 16 in
  delta * slope + 0x0800 < 2 ^ 32
  /\ kelvin_of offset slope sample = (delta * slope + 0x0800) / 2 ^ 12.
Proof.
  intros Hs delta. unfold kelvin_of, u16, u32. fold delta.
  assert (Hd : 0 <= delta < 2 ^ 16) by (subst delta; zdiv).
  pose proof (product_fits delta slope Hd Hs) as Hp.
  set (p := delta * slope) in *. rewrite Z.shiftr_div_pow2 by lia.
  split; [lia|]. f_equal. zdiv.
Qed.

Lemma celsius_of_eq kelvin :
  0 <= kelvin < 273 + 2 ^ 15 -> celsius_of kelvin = kelvin - 273.
Proof.
  intros H. unfold celsius_of, abs, s16, u32.
  destruct (Z.ltb_spec 0 ((kelvin - 273) mod 2 ^ 32)); zdiv.
Qed.

Lemma DisplayTemp_units d t s :
  match exec (DisplayTemp d t) s with
  | Some s' =>
    get_OUT (Digit 2) s' = glyph Degree /\ get_OUT (Digit 3) s' = glyph Celsius
    /\ PORTF_OUT s' = 0x20
  | None => True
  end.
Proof.
  rewrite DisplayTemp_eq. cbv zeta.
  generalize (tick_celsius d t) (tick_kelvin d t). intros c k.
  destruct (if k <? 273 then _ else _); [|exact I].
  destruct (Char_at _); [|exact I].
  destruct s. repeat split.
Qed.

Lemma tick_kelvin_eq d t :
  let delta := (u16 (SIGROW_TEMPSENSE1 d) - u16 (RES_TEMPSENSE t)) mod 2 ^ 16 in
  let slope := u16 (SIGROW_TEMPSENSE0 d) in
  delta * slope + 0x0800 < 2 ^ 32
  /\ tick_kelvin d t = (delta * slope + 0x0800) / 2 ^ 12
  /\ 0 <= tick_kelvin d t.
Proof.
  intros delta slope. unfold tick_kelvin.
  assert (Hs : 0 <= slope < 2 ^ 16) by (subst slope; unfold u16; zdiv).
  destruct (kelvin_of_eq (u16 (SIGROW_TEMPSENSE1 d)) slope
              (u16 (RES_TEMPSENSE t)) Hs) as [F E].
  fold delta in F, E. fold slope. split; [exact F|]. split; [exact E|].
  rewrite E.
  assert (Hd : 0 <= delta < 2 ^ 16) by (subst delta; zdiv).
  pose proof (product_fits delta slope Hd Hs) as Hp.
  set (p := delta * slope) in *. zdiv.
Qed.

Lemma zero_delta d pin v :
  tick_kelvin d (mkTick pin v (SIGROW_TEMPSENSE1 d)) = 0.
Proof.
  unfold tick_kelvin, kelvin_of. cbn [RES_TEMPSENSE].
  rewrite Z.sub_diag. reflexivity.
Qed.

End Conversion.

(** C8, as the code has it.  The conversion takes the difference of
    offset and sample as a 16-bit unsigned value, multiplies it by the
    slope and adds 0x0800 in 32 bits, where the sum always fits, and
    shifts right by 12, which rounds the quotient by 4096 to the nearest
    integer; celsius is |kelvin - 273| whenever kelvin is at least 273 and
    kelvin - 273 fits the 16-bit int.  With sample = offset, kelvin is 0,
    below 273, the case in which line 117 writes the minus glyph to slot
    0.  Whenever the renderer returns, slots 2 and 3 hold the degree glyph
    and C, so that one digit at most follows slot 0. *)
Theorem temperature_conversion (d : Device) (t : Tick) (s : State) (pin v : Z) :
  let offset := u16 (SIGROW_TEMPSENSE1 d) in
  let slope := u16 (SIGROW_TEMPSENSE0 d) in
  let sample := u16 (RES_TEMPSENSE t) in
  let delta := (offset - sample) mod 2 ^ 16 in
  let kelvin := tick_kelvin d t in
  let t0 := mkTick pin v (SIGROW_TEMPSENSE1 d) in
  delta * slope + 0x0800 < 2 ^ 32
  /\ kelvin = (delta * slope + 0x0800) / 2 ^ 12
  /\ 2 ^ 12 * kelvin - 0x0800 <= delta * slope < 2 ^ 12 * kelvin + 0x0800
  /\ (273 <= kelvin < 273 + 2 ^ 15 -> tick_celsius d t = Z.abs (kelvin - 273))
  /\ tick_kelvin d t0 = 0
  /\ (tick_kelvin d t0 <? 273) = true
  /\ match exec (DisplayTemp d t) s with
     | Some s' =>
       get_OUT (Digit 2) s' = glyph Degree /\ get_OUT (Digit 3) s' = glyph Celsius
       /\ PORTF_OUT s' = 0x20
     | None => True
     end.
Proof.
  intros offset slope sample delta kelvin t0.
  destruct (tick_kelvin_eq d t) as (F & E & P).
  fold offset sample delta slope kelvin in F, E, P.
  split; [exact F|]. split; [exact E|]. split.
  { rewrite E. set (p := delta * slope) in *. clearbody p. clear. zdiv. }
  split.
  { intros H. unfold tick_celsius. fold kelvin.
    rewrite celsius_of_eq by lia. lia. }
  pose proof (zero_delta d pin v) as Z0. fold t0 in Z0.
  split; [exact Z0|]. split; [rewrite Z0; reflexivity|].
  apply DisplayTemp_units.
Qed.

Lemma temperature_conversion_witness :
  273 <= tick_kelvin dev24 released < 273 + 2 ^ 15
  /\ tick_celsius dev24 released = Z.abs (tick_kelvin dev24 released - 273).
Proof.
  assert (H : 273 <= tick_kelvin dev24 released < 273 + 2 ^ 15)
    by (split; [vm_compute; discriminate | reflexivity]).
  split; [exact H|].
  exact (proj1 (proj2 (proj2 (proj2
           (temperature_conversion dev24 released power_on 0 0)))) H).
Defined.

(** C8 as stated fails.  With sample = offset kelvin is 0 and celsius is
    -273, not 273: [abs] gets the unsigned difference and returns it
    unchanged.  Slot 1 is then read at index -273 % 10 = -3, outside the
    table, and the renderer has no defined result.  And a kelvin of
    273 + 2^15 or more does not fit the int: offset 65535, slope 65535
    and sample 0 give kelvin 1048544 and celsius -305. *)
Lemma temperature_zero_delta_counterexample :
  tick_kelvin dev24 (mkTick 0x0C 1650 2000) = 0
  /\ tick_celsius dev24 (mkTick 0x0C 1650 2000) = -273
  /\ tick_celsius dev24 (mkTick 0x0C 1650 2000) <> 273
  /\ Z.rem (-273) 10 = -3
  /\ Char_at (-3) = None
  /\ exec (DisplayTemp dev24 (mkTick 0x0C 1650 2000)) power_on = None
  /\ tick_kelvin (mkDevice false 65535 65535) (mkTick 0x0C 1650 0) = 1048544
  /\ tick_celsius (mkDevice false 65535 65535) (mkTick 0x0C 1650 0) = -305
  /\ tick_celsius (mkDevice false 65535 65535) (mkTick 0x0C 1650 0)
     <> Z.abs (1048544 - 273).
Proof.
  repeat split; vm_compute; discriminate.
Qed.

(** C10, as the code has it, for every offset, slope and sample whose
    kelvin is at least 273 and below 273 + 2^15.  The slot 1 index
    celsius%10 is a digit, inside the table.  The slot 0 index celsius/10
    is inside the table exactly when kelvin < 423, and the renderer
    returns exactly then. *)
Theorem temperature_lookups (d : Device) (t : Tick) (s : State) :
  273 <= tick_kelvin d t < 273 + 2 ^ 15 ->
  let kelvin := tick_kelvin d t in
  let celsius := tick_celsius d t in
  0 <= Z.rem celsius 10 < 10
  /\ in_table (Z.rem celsius 10) = true
  /\ (kelvin <? 273) || in_table (Z.quot celsius 10) = (kelvin <? 423)
  /\ match exec (DisplayTemp d t) s with
     | Some _ => kelvin < 423
     | None => 423 <= kelvin
     end.
Proof.
  intros H. cbv zeta.
  assert (C : tick_celsius d t = tick_kelvin d t - 273).
  { unfold tick_celsius. apply celsius_of_eq. lia. }
  rewrite DisplayTemp_eq. cbv zeta.
  generalize dependent (tick_celsius d t). intros celsius C.
  generalize dependent (tick_kelvin d t). intros kelvin H C.
  assert (R : 0 <= Z.rem celsius 10 < 10).
  { rewrite C. rewrite Z.rem_mod_nonneg by lia. zdiv. }
  assert (T1 : in_table (Z.rem celsius 10) = true).
  { apply in_table_iff. unfold CharLen. lia. }
  assert (L : (kelvin <? 273) = false) by (apply Z.ltb_ge; lia).
  assert (T0 : (kelvin <? 273) || in_table (Z.quot celsius 10) = (kelvin <? 423)).
  { rewrite L. cbn [orb]. rewrite C, Z.quot_div_nonneg by lia.
    unfold in_table, CharLen.
    destruct (Z.ltb_spec kelvin 423);
      [apply andb_true_iff | apply andb_false_iff; right];
      rewrite ?Z.leb_le, ?Z.ltb_lt, ?Z.ltb_ge; try split; zdiv. }
  split; [exact R|]. split; [exact T1|]. split; [exact T0|].
  rewrite (Char_at_glyph _ T1). rewrite L in *. cbn [orb] in T0.
  destruct (Z.ltb_spec kelvin 423) as [L'|L'].
  - rewrite (Char_at_glyph _ T0). exact L'.
  - rewrite (Char_at_outside _ T0). exact L'.
Qed.

Lemma temperature_lookups_witness :
  273 <= tick_kelvin dev24 released < 273 + 2 ^ 15
  /\ in_table (Z.rem (tick_celsius dev24 released) 10) = true.
Proof.
  assert (H : 273 <= tick_kelvin dev24 released < 273 + 2 ^ 15)
    by (split; [vm_compute; discriminate | reflexivity]).
  split; [exact H|].
  exact (proj1 (proj2 (temperature_lookups dev24 released power_on H))).
Defined.

(** C10 as stated fails.  Offset 473, slope 4096 and sample 0 give kelvin
    473 and celsius 200, so slot 0 is read at index 20 of the 15-entry
    table.  Offset 65535, slope 65535 and sample 0 give a kelvin that does
    not fit the int, celsius -305, and slot 1 is read at index -5.  With
    sample = offset, kelvin is 0, celsius -273 and slot 1 is read at index
    -3. *)
Lemma temperature_lookups_counterexample :
  (tick_kelvin (mkDevice false 4096 473) (mkTick 0x0C 1650 0) = 473
   /\ tick_celsius (mkDevice false 4096 473) (mkTick 0x0C 1650 0) = 200
   /\ Z.quot 200 10 = 20
   /\ ~ (20 < CharLen)
   /\ exec (DisplayTemp (mkDevice false 4096 473) (mkTick 0x0C 1650 0)) power_on
      = None)
  /\ (tick_celsius (mkDevice false 65535 65535) (mkTick 0x0C 1650 0) = -305
      /\ Z.rem (-305) 10 = -5
      /\ in_table (-5) = false)
  /\ (tick_celsius dev24 (mkTick 0x0C 1650 2000) = -273
      /\ Z.rem (-273) 10 = -3
      /\ in_table (-3) = false).
Proof.
  repeat split. unfold CharLen. lia.
Qed.

(** ** Voltage renderer *)

(** C9, as the code has it.  For a scaled voltage v of 100 or more the
    renderer does not cut v down to two digits: slot 1 is read at index
    v/10, which is 10 or more and so never the digit (v mod 100)/10.  When
    v < 150 the renderer returns, slot 1 holding the non-digit glyph of
    index v/10 with the decimal point bit set and slot 2 the digit
    v mod 10; when v >= 150 the index lies outside the 15-entry table and
    the renderer has no defined result. *)
Theorem voltage_overflow (t : Tick) (s : State) :
  100 <= voltage_of t ->
  let v := voltage_of t in
  10 <= v / 10
  /\ (v mod 100) / 10 < 10
  /\ in_table (v mod 10) = true
  /\ match exec (DisplayVoltage t) s with
     | Some s' =>
       v < 150
       /\ slots s' = [glyph Space; Z.lor (glyph (v / 10)) 0x80;
                      glyph (v mod 10); glyph Vee]
       /\ PORTF_OUT s' = 0
     | None => 150 <= v /\ in_table (v / 10) = false
     end.
Proof.
  intros H v. fold v in H.
  assert (T2 : in_table (v mod 10) = true).
  { apply in_table_iff. unfold CharLen. zdiv. }
  split; [zdiv|]. split; [zdiv|]. split; [exact T2|].
  rewrite DisplayVoltage_eq. cbv zeta. fold v.
  rewrite (Char_at_glyph _ T2).
  destruct (in_table (v / 10)) eqn:T1.
  - rewrite (Char_at_glyph _ T1).
    apply in_table_iff in T1. unfold CharLen in T1.
    split; [zdiv|]. destruct s. split; reflexivity.
  - rewrite (Char_at_outside _ T1). split; [|reflexivity].
    unfold in_table, CharLen in T1.
    apply andb_false_iff in T1 as [T1|T1];
      rewrite ?Z.leb_gt, ?Z.ltb_ge in T1; zdiv.
Qed.

Lemma voltage_overflow_witness :
  100 <= voltage_of (mkTick 0x0C 5000 983)
  /\ 10 <= voltage_of (mkTick 0x0C 5000 983) / 10.
Proof.
  assert (H : 100 <= voltage_of (mkTick 0x0C 5000 983)) by (cbn; lia).
  split; [exact H|].
  exact (proj1 (voltage_overflow (mkTick 0x0C 5000 983) power_on H)).
Defined.

(** C9 as stated fails: a reading of 5000 (v = 100) puts the space glyph
    with the decimal point bit in slot 1, where the digit (v mod 100)/10
    is 0; and a reading of 7500 (v = 150) reads the table at index 15, so
    the renderer has no defined result. *)
Lemma voltage_overflow_counterexample :
  (exists s',
     exec (DisplayVoltage (mkTick 0x0C 5000 983)) power_on = Some s'
     /\ voltage_of (mkTick 0x0C 5000 983) = 100
     /\ get_OUT (Digit 1) s' = Z.lor (glyph Space) 0x80
     /\ get_OUT (Digit 1) s' <> Z.lor (glyph ((100 mod 100) / 10)) 0x80)
  /\ voltage_of (mkTick 0x0C 7500 983) = 150
  /\ exec (DisplayVoltage (mkTick 0x0C 7500 983)) power_on = None.
Proof.
  split; [|split; reflexivity].
  eexists. split; [vm_compute; reflexivity|].
  repeat split. vm_compute. discriminate.
Qed.


(** * Further properties of the code *)

(** ** The glyph table and the buttons *)

(** X13. Every glyph of the table fits seven bits, so bit 7 is free for
    the decimal point, and different symbols have different glyphs: a
    pattern read from the table determines its index, which lies in
    0..14. *)
Theorem glyph_table (i j c : Z) :
  Char_at i = Some c -> Char_at j = Some c ->
  i = j /\ 0 <= i < CharLen /\ 0 <= c < 128 /\ Z.testbit c 7 = false.
Proof.
  assert (Cases : forall k, 0 <= k < 15 ->
            k = 0 \/ k = 1 \/ k = 2 \/ k = 3 \/ k = 4 \/ k = 5 \/ k = 6 \/ k = 7
            \/ k = 8 \/ k = 9 \/ k = 10 \/ k = 11 \/ k = 12 \/ k = 13 \/ k = 14)
    by (intros; lia).
  assert (In : forall k x, Char_at k = Some x -> 0 <= k < 15).
  { intros k x Hk. destruct (in_table k) eqn:T.
    - apply in_table_iff in T. exact T.
    - rewrite (Char_at_outside _ T) in Hk. discriminate. }
  intros Hi Hj. pose proof (In i c Hi) as Ri. pose proof (In j c Hj) as Rj.
  split; [|split; [exact Ri|]].
  - rewrite <- Hj in Hi.
    destruct (Cases i Ri) as [Ei|Ei]; repeat (destruct Ei as [Ei|Ei]); subst i;
      (destruct (Cases j Rj) as [Ej|Ej]; repeat (destruct Ej as [Ej|Ej]);
       subst j; try reflexivity; cbn in Hi; discriminate).
  - destruct (Cases i Ri) as [E|E]; repeat (destruct E as [E|E]);
      subst i; cbn in Hi; inversion Hi; subst c; (split; [lia|reflexivity]).
Qed.

Lemma glyph_table_witness :
  Char_at 3 = Some 0x79 /\ 3 = 3 /\ 0 <= 3 < CharLen
  /\ 0 <= 0x79 < 128 /\ Z.testbit 0x79 7 = false.
Proof.
  split; [reflexivity|].
  apply (glyph_table 3 3 0x79); reflexivity.
Defined.

Lemma land_bit x n :
  0 <= n -> (Z.land x (2 ^ n) =? 0) = negb (Z.testbit x n).
Proof.
  intros Hn. destruct (Z.testbit x n) eqn:B; cbn [negb].
  - apply Z.eqb_neq. intros E.
    assert (T : Z.testbit (Z.land x (2 ^ n)) n = true).
    { rewrite Z.land_spec, B, Z.pow2_bits_true by exact Hn. reflexivity. }
    rewrite E, Z.bits_0 in T. discriminate.
  - apply Z.eqb_eq. apply Z.bits_inj'. intros m Hm.
    rewrite Z.land_spec, Z.bits_0.
    destruct (Z.eq_dec n m) as [<-|Ne].
    + now rewrite B.
    + rewrite (Z.pow2_bits_false n m Ne). apply andb_false_r.
Qed.

(** X15. The buttons are read active low from pins 2 and 3 of PORTE.IN
    and from nothing else: the minutes button reads as pressed exactly
    when pin 2 is low, the hours button exactly when pin 3 is low, whatever
    the other pins of the port carry. *)
Theorem buttons_active_low (t : Tick) :
  MinsButton t = negb (Z.testbit (PORTE_IN t) 2)
  /\ HoursButton t = negb (Z.testbit (PORTE_IN t) 3).
Proof.
  unfold MinsButton, HoursButton. split.
  - change PIN2_bm with (2 ^ 2). apply land_bit. lia.
  - change PIN3_bm with (2 ^ 3). apply land_bit. lia.
Qed.

(** ** Port setup and the AC drive *)



(** X3. On the 31 invocations of each half second that return early the
    handler only inverts the lines and counts: it returns for any
    readings, the time of day and the ADC registers are untouched, the log
    grows by the six inversions, and what the display shows does not
    change. *)
Theorem early_return (d : Device) (t : Tick) (s : State) :
  0 <= cycles s < 31 ->
  exists s',
    tick d t s = Some s'
    /\ cycles s' = cycles s + 1
    /\ halfsecs s' = halfsecs s
    /\ lit s' = lit s
    /\ ADC0_CTRLA s' = ADC0_CTRLA s
    /\ ADC0_MUXPOS s' = ADC0_MUXPOS s
    /\ trace s' = trace s ++ toggle_events.
Proof.
  intros Hc. rewrite tick_eq.
  assert (U : u8 (cycles s + 1) = cycles s + 1) by (unfold u8; zdiv).
  rewrite U. destruct (Z.ltb_spec (cycles s + 1) 32); [|lia].
  eexists. split; [reflexivity|].
  destruct (toggled_facts s) as (_ & _ & _ & Tt).
  pose proof (lit_toggled s) as L.
  destruct s as [c h a b cc dd e f mx ct tr].
  cbn [cycles] in *. repeat split; try exact L. exact Tt.
Qed.

Lemma early_return_witness :
  exists s',
    tick dev24 (mkTick 0x0C 9999 0) power_on = Some s'
    /\ cycles s' = cycles power_on + 1
    /\ halfsecs s' = halfsecs power_on
    /\ lit s' = lit power_on
    /\ ADC0_CTRLA s' = ADC0_CTRLA power_on
    /\ ADC0_MUXPOS s' = ADC0_MUXPOS power_on
    /\ trace s' = trace power_on ++ toggle_events.
Proof.
  apply (early_return dev24 (mkTick 0x0C 9999 0) power_on). cbn. lia.
Defined.

(** ** The tick scheduler *)

Lemma run_cycles d ts : forall s,
  forallb (shown d) ts = true -> 0 <= cycles s < 32 ->
  exists s', run d ts s = Some s'
             /\ cycles s' = (cycles s + Z.of_nat (length ts)) mod 32.
Proof.
  induction ts as [|t ts IH]; intros s H Hc.
  - exists s. split; [reflexivity|]. cbn [length Z.of_nat]. zdiv.
  - cbn [forallb] in H. apply andb_prop in H as [Ht Hts].
    destruct (tick_step d t s Ht) as (s1 & E1 & C1 & _).
    assert (U : u8 (cycles s + 1) = cycles s + 1) by (unfold u8; zdiv).
    rewrite U in C1.
    assert (Hc1 : 0 <= cycles s1 < 32).
    { rewrite C1. destruct (Z.ltb_spec (cycles s + 1) 32); lia. }
    destruct (IH s1 Hts Hc1) as (s' & E' & C').
    exists s'. cbn [run]. rewrite E1. split; [exact E'|].
    rewrite C', C1. cbn [length]. rewrite Nat2Z.inj_succ.
    destruct (Z.ltb_spec (cycles s + 1) 32); zdiv.
Qed.



Lemma lit_even_phase s :
  Z.testbit (PORTE_OUT s) 0 = false -> lit s = patterns s.
Proof.
  intros H. unfold lit, patterns. rewrite H. rewrite Z.lxor_0_r. f_equal.
  unfold slots. cbn [map]. now rewrite !Z.lxor_0_r.
Qed.



(** ** Holding a button *)

Lemma adjusted_adjust t h :
  adjusted t h = adjust (MinsButton t) (HoursButton t) h.
Proof. reflexivity. Qed.

(** A run on which the buttons do not change applies the half-second
    update once per boundary crossed. *)
Lemma run_held d mins hours ts : forall s,
  forallb (held d mins hours) ts = true -> 0 <= cycles s < 32 ->
  exists s',
    run d ts s = Some s'
    /\ cycles s' = (cycles s + Z.of_nat (length ts)) mod 32
    /\ halfsecs s'
       = Nat.iter (Z.to_nat ((cycles s + Z.of_nat (length ts)) / 32))
                  (adjust mins hours) (halfsecs s).
Proof.
  induction ts as [|t ts IH]; intros s H Hc.
  - exists s. cbn [length Z.of_nat run]. rewrite Z.add_0_r.
    split; [reflexivity|]. split; [zdiv|].
    replace (cycles s / 32) with 0 by zdiv. reflexivity.
  - cbn [forallb] in H. apply andb_prop in H as [Ht Hts].
    unfold held in Ht. apply andb_prop in Ht as [Ht Hh].
    apply andb_prop in Ht as [Ht Hm].
    apply Bool.eqb_prop in Hm, Hh.
    destruct (tick_step d t s Ht) as (s1 & E1 & C1 & H1 & _).
    rewrite adjusted_adjust, Hm, Hh in H1.
    assert (U : u8 (cycles s + 1) = cycles s + 1) by (unfold u8; zdiv).
    rewrite U in C1, H1.
    assert (Hc1 : 0 <= cycles s1 < 32).
    { rewrite C1. destruct (Z.ltb_spec (cycles s + 1) 32); lia. }
    destruct (IH s1 Hts Hc1) as (s' & E' & C' & H').
    exists s'. cbn [run]. rewrite E1. split; [exact E'|].
    rewrite C', H', C1, H1. cbn [length]. rewrite Nat2Z.inj_succ.
    set (n := Z.of_nat (length ts)). assert (0 <= n) by (subst n; lia).
    destruct (Z.ltb_spec (cycles s + 1) 32) as [L|L].
    + split; [zdiv|]. do 2 f_equal. zdiv.
    + assert (Ec : cycles s = 31) by lia. rewrite Ec.
      split; [zdiv|]. rewrite <- Nat.iter_succ_r. f_equal.
      rewrite <- Z2Nat.inj_succ by zdiv. f_equal. zdiv.
Qed.

Lemma mins_hold_iter k h :
  let h1 := advance h in
  Nat.iter (S k) (adjust true false) h
  = hour_block h1 * 7200 + ((minute_of h1 + Z.of_nat (S k)) mod 60) * 120.
Proof.
  intros h1. pose proof (advance_range h) as R. fold h1 in R.
  induction k as [|k IH].
  - cbn [Nat.iter nat_rect]. unfold Nat.iter, nat_rect, adjust. fold h1.
    rewrite mins_adjust_eq by exact R.
    unfold hour_block, minute_of. change (Z.of_nat 1) with 1. zdiv.
  - rewrite Nat.iter_succ, IH. unfold adjust.
    set (r := (minute_of h1 + Z.of_nat (S k)) mod 60).
    assert (Hr : 0 <= r < 60) by (subst r; zdiv).
    assert (Hb : 0 <= hour_block h1 < 24) by (unfold hour_block; zdiv).
    set (b := hour_block h1) in *.
    assert (A : advance (b * 7200 + r * 120) = b * 7200 + r * 120 + 1).
    { rewrite advance_eq by lia. zdiv. }
    rewrite A, mins_adjust_eq by lia.
    replace ((minute_of h1 + Z.of_nat (S (S k))) mod 60) with ((r + 1) mod 60)
      by (subst r; rewrite (Nat2Z.inj_succ (S k)); zdiv).
    zdiv.
Qed.

Lemma hours_hold_iter k h :
  0 <= h < 180000 ->
  let hk := Nat.iter (S k) (adjust false true) h in
  7200 <= hk < 180000
  /\ hk mod 172800 = (h + 7201 * Z.of_nat (S k)) mod 172800.
Proof.
  intros Hh. cbv zeta. induction k as [|k IH].
  - unfold Nat.iter, nat_rect, adjust.
    pose proof (advance_range h) as R.
    rewrite hours_adjust_eq by exact R. rewrite advance_eq in * by exact Hh.
    change (Z.of_nat 1) with 1. zdiv.
  - rewrite Nat.iter_succ. destruct IH as [R E].
    set (hk := Nat.iter (S k) (adjust false true) h) in *.
    unfold adjust. pose proof (advance_range hk) as Ra.
    rewrite hours_adjust_eq by exact Ra. rewrite advance_eq in * by lia.
    rewrite (Nat2Z.inj_succ (S k)). set (n := Z.of_nat (S k)) in *.
    clearbody hk n. zdiv.
Qed.

(** X6. Holding the minutes button steps the minute once per half second
    and never carries into the hour: after k+1 boundaries with only the
    minutes button held, the time of day is the hour block of the first
    advanced value, the minute of that value plus k+1 modulo 60, and zero
    seconds.  Sixty boundaries bring the same minute back. *)
Theorem minutes_hold (d : Device) (ts : list Tick) (s : State) (k : nat) :
  forallb (held d true false) ts = true ->
  cycles s = 0 -> length ts = (32 * S k)%nat ->
  exists s',
    run d ts s = Some s'
    /\ cycles s' = 0
    /\ halfsecs s'
       = hour_block (advance (halfsecs s)) * 7200
         + ((minute_of (advance (halfsecs s)) + Z.of_nat (S k)) mod 60) * 120.
Proof.
  intros Hh Hc Hl.
  destruct (run_held d true false ts s Hh ltac:(lia)) as (s' & E & C & H).
  exists s'. split; [exact E|].
  rewrite Hc, Hl, Nat2Z.inj_mul in C, H. change (Z.of_nat 32) with 32 in *.
  split; [rewrite C; zdiv|].
  replace (Z.to_nat ((0 + 32 * Z.of_nat (S k)) / 32)) with (S k) in H
    by (replace ((0 + 32 * Z.of_nat (S k)) / 32) with (Z.of_nat (S k)) by zdiv;
        now rewrite Nat2Z.id).
  rewrite H. apply mins_hold_iter.
Qed.

Lemma minutes_hold_witness :
  exists s',
    run dev24 (repeat mins_held 64) power_on = Some s'
    /\ cycles s' = 0
    /\ halfsecs s'
       = hour_block (advance (halfsecs power_on)) * 7200
         + ((minute_of (advance (halfsecs power_on)) + Z.of_nat 2) mod 60) * 120.
Proof.
  apply (minutes_hold dev24 (repeat mins_held 64) power_on 1); reflexivity.
Defined.

(** X7. Holding the hours button steps the clock by one hour and the half
    second that passed at every boundary: after k+1 boundaries with only
    the hours button held, the time of day is, modulo the day, the old one
    plus 7201 (k+1), and it lies in [7200, 180000). *)
Theorem hours_hold (d : Device) (ts : list Tick) (s : State) (k : nat) :
  forallb (held d false true) ts = true ->
  cycles s = 0 -> 0 <= halfsecs s < 180000 -> length ts = (32 * S k)%nat ->
  exists s',
    run d ts s = Some s'
    /\ 7200 <= halfsecs s' < 180000
    /\ halfsecs s' mod 172800
       = (halfsecs s + 7201 * Z.of_nat (S k)) mod 172800.
Proof.
  intros Hh Hc Hr Hl.
  destruct (run_held d false true ts s Hh ltac:(lia)) as (s' & E & _ & H).
  exists s'. split; [exact E|].
  rewrite Hc, Hl, Nat2Z.inj_mul in H. change (Z.of_nat 32) with 32 in *.
  replace (Z.to_nat ((0 + 32 * Z.of_nat (S k)) / 32)) with (S k) in H
    by (replace ((0 + 32 * Z.of_nat (S k)) / 32) with (Z.of_nat (S k)) by zdiv;
        now rewrite Nat2Z.id).
  rewrite H. apply (hours_hold_iter k (halfsecs s) Hr).
Qed.

Lemma hours_hold_witness :
  exists s',
    run dev24 (repeat hours_held 768) power_on = Some s'
    /\ 7200 <= halfsecs s' < 180000
    /\ halfsecs s' mod 172800
       = (halfsecs power_on + 7201 * Z.of_nat 24) mod 172800.
Proof.
  apply (hours_hold dev24 (repeat hours_held 768) power_on 23).
  - reflexivity.
  - reflexivity.
  - cbn. lia.
  - reflexivity.
Defined.

(** ** What the renderers write *)

Lemma writes_log ws : forall s,
  trace (writes ws s) = trace s ++ map (fun w => WriteOUT (fst w) (snd w)) ws
  /\ ADC0_CTRLA (writes ws s) = ADC0_CTRLA s
  /\ ADC0_MUXPOS (writes ws s) = ADC0_MUXPOS s.
Proof.
  induction ws as [|[p v] ws IH]; intros s.
  - cbn. now rewrite app_nil_r.
  - cbn [writes fold_left map]. fold (writes ws (write s (p, v))).
    destruct (IH (write s (p, v))) as (T & A & M). rewrite T, A, M.
    destruct s, p; cbn; rewrite <- app_assoc; repeat split.
Qed.

Lemma conversions_app tr1 tr2 :
  conversions (tr1 ++ tr2) = conversions tr1 ++ conversions tr2.
Proof. unfold conversions. apply flat_map_app. Qed.

Lemma conversions_writes ws :
  conversions (map (fun w => WriteOUT (fst w) (snd w)) ws) = [].
Proof. induction ws as [|w ws IH]; [reflexivity | exact IH]. Qed.

(** The log and the ADC registers after a renderer. *)
Lemma render_log d t r s s' :
  render d t r s = Some s' ->
  exists evs,
    trace s' = trace s ++ evs
    /\ conversions evs = selected_conversion r
    /\ ADC0_CTRLA s' = match r with
                       | VoltageRenderer | TemperatureRenderer => 0
                       | _ => ADC0_CTRLA s
                       end.
Proof.
  destruct r; cbn [render selected_conversion].
  - rewrite DisplayTime_eq. cbv zeta.
    repeat (destruct (Char_at _); [|discriminate]). from_Some.
    match goal with |- context [writes ?ws s] =>
      destruct (writes_log ws s) as (T & A & _) end.
    eexists. split; [exact T|]. split; [apply conversions_writes | exact A].
  - rewrite DisplayVoltage_eq. cbv zeta.
    repeat (destruct (Char_at _); [|discriminate]). from_Some.
    match goal with |- context [writes ?ws ?s0] =>
      destruct (writes_log ws s0) as (T & A & _) end.
    exists ([Convert ADC_MUXPOS_DACREF0_gc]
            ++ map (fun w => WriteOUT (fst w) (snd w))
                 [(PORTD, glyph Space); (PORTC, Z.lor z 128); (PORTA, z0);
                  (PORTB, glyph Vee); (PORTF, 0)]).
    split; [|split].
    + rewrite T. destruct s. cbn [trace converted set_CTRLA log set_MUXPOS].
      now rewrite <- app_assoc.
    + rewrite conversions_app, conversions_writes. reflexivity.
    + rewrite A. destruct s. reflexivity.
  - rewrite DisplayTemp_eq. cbv zeta.
    destruct (if _ <? 273 then _ else _); [|discriminate].
    destruct (Char_at _); [|discriminate]. from_Some.
    match goal with |- context [writes ?ws ?s0] =>
      destruct (writes_log ws s0) as (T & A & _) end.
    exists ([Convert ADC_MUXPOS_TEMPSENSE_gc]
            ++ map (fun w => WriteOUT (fst w) (snd w))
                 [(PORTD, z); (PORTC, z0); (PORTA, glyph Degree);
                  (PORTB, glyph Celsius); (PORTF, 32)]).
    split; [|split].
    + rewrite T. destruct s. cbn [trace converted set_CTRLA log set_MUXPOS].
      now rewrite <- app_assoc.
    + rewrite conversions_app, conversions_writes. reflexivity.
    + rewrite A. destruct s. reflexivity.
  - from_Some. exists []. rewrite app_nil_r. repeat split.
Qed.



Lemma render_overwrites d t r s1 s2 :
  r <> NoRenderer -> halfsecs s1 = halfsecs s2 ->
  option_map patterns (render d t r s1) = option_map patterns (render d t r s2).
Proof.
  intros Hr Hh. destruct r; cbn [render]; [| | |congruence].
  - rewrite Hh, !DisplayTime_eq. cbv zeta.
    repeat (destruct (Char_at _); [|reflexivity]).
    destruct s1, s2. reflexivity.
  - rewrite !DisplayVoltage_eq. cbv zeta.
    repeat (destruct (Char_at _); [|reflexivity]).
    destruct s1, s2. reflexivity.
  - rewrite !DisplayTemp_eq. cbv zeta.
    destruct (if _ <? 273 then _ else _); [|reflexivity].
    destruct (Char_at _); [|reflexivity].
    destruct s1, s2. reflexivity.
Qed.

(** X9. A renderer leaves nothing of the previous screen: on a boundary
    where one is selected, all four digit patterns and the auxiliary port
    are overwritten, so the patterns after the invocation depend on the
    time of day and the tick only, not on what the ports held. *)
Theorem renderers_overwrite (d : Device) (t : Tick) (s1 s2 : State) :
  cycles s1 = 31 -> cycles s2 = 31 -> halfsecs s1 = halfsecs s2 ->
  select_renderer (advance (halfsecs s1) mod 120) (MinsButton t) (HoursButton t)
  <> NoRenderer ->
  option_map patterns (tick d t s1) = option_map patterns (tick d t s2).
Proof.
  intros C1 C2 Hh Hr. rewrite !tick_eq, C1, C2, <- Hh.
  change (u8 (31 + 1) <? 32) with false. cbv iota.
  apply render_overwrites; [exact Hr|].
  destruct s1, s2. reflexivity.
Qed.

Lemma renderers_overwrite_witness :
  option_map patterns (tick dev24 released (set_cycles 31 power_on))
  = option_map patterns
      (tick dev24 released (set_OUT PORTA 0x55 (set_cycles 31 power_on))).
Proof.
  apply (renderers_overwrite dev24 released (set_cycles 31 power_on)
           (set_OUT PORTA 0x55 (set_cycles 31 power_on)));
    try reflexivity.
  cbn. discriminate.
Defined.

(** ** Time renderer *)

Lemma low_bit h : Z.land h 1 = if Z.odd h then 1 else 0.
Proof.
  change 1 with (Z.ones 1) at 1. rewrite Z.land_ones by lia.
  change (2 ^ 1) with 2. apply Zmod_odd.
Qed.

Lemma digit_cases i :
  0 <= i < 10 ->
  i = 0 \/ i = 1 \/ i = 2 \/ i = 3 \/ i = 4 \/ i = 5 \/ i = 6 \/ i = 7
  \/ i = 8 \/ i = 9.
Proof. lia. Qed.

(** X1. The time renderer drives the auxiliary port from the time of day
    and the last digit alone: PF4, the colon, is on exactly on odd half
    seconds, which blinks it at 1 Hz; PF5 carries segment a (bit 6) of the
    slot 3 glyph; no other pin of the port is set. *)
Theorem colon_blinks (d : Device) (h : Z) (s : State) :
  exists s',
    exec (DisplayTime d h) s = Some s'
    /\ PORTF_OUT s'
       = (if Z.testbit (get_OUT (Digit 3) s') 6 then 0x20 else 0)
         + (if Z.odd h then 0x10 else 0)
    /\ Z.testbit (PORTF_OUT s') 4 = Z.odd h.
Proof.
  rewrite DisplayTime_eq. cbv zeta.
  assert (Hm : 0 <= u8 ((h / 120) mod 60) mod 10 < 10) by zdiv.
  assert (Ht : in_table (u8 ((h / 120) mod 60) / 10) = true)
    by (apply in_table_iff; unfold CharLen, u8; zdiv).
  assert (Hh : in_table ((if TWELVEHOUR d then u8 ((h / 7200) mod 12 + 1)
                          else u8 ((h / 7200) mod 24)) / 10) = true
               /\ in_table ((if TWELVEHOUR d then u8 ((h / 7200) mod 12 + 1)
                             else u8 ((h / 7200) mod 24)) mod 10) = true).
  { destruct (TWELVEHOUR d); rewrite !in_table_iff; unfold CharLen, u8;
      split; zdiv. }
  destruct Hh as [H1 H2].
  rewrite (Char_at_glyph _ H1), (Char_at_glyph _ H2), (Char_at_glyph _ Ht).
  rewrite low_bit.
  generalize dependent (u8 ((h / 120) mod 60) mod 10). intros i Hi.
  generalize (glyph ((if TWELVEHOUR d then u8 ((h / 7200) mod 12 + 1)
                      else u8 ((h / 7200) mod 24)) / 10)).
  generalize (glyph ((if TWELVEHOUR d then u8 ((h / 7200) mod 12 + 1)
                      else u8 ((h / 7200) mod 24)) mod 10)).
  generalize (glyph (u8 ((h / 120) mod 60) / 10)).
  intros g2 g1 g0.
  destruct (digit_cases i Hi) as [E|E]; repeat (destruct E as [E|E]); subst i;
    (eexists; split; [reflexivity|]);
    destruct s; destruct (Z.odd h); split; reflexivity.
Qed.

(** X2. The wrap of the day can wait.  A time of day that has run past
    172800 (as the hours adjustment leaves it) is shown exactly as its
    value modulo 172800, and the next advance gives the same result for
    both. *)
Theorem day_wrap_can_wait (d : Device) (h : Z) (s : State) :
  0 <= h < 2 ^ 32 - 1 ->
  exec (DisplayTime d (h mod 172800)) s = exec (DisplayTime d h) s
  /\ advance (h mod 172800) = advance h.
Proof.
  intros Hh. split.
  - rewrite !DisplayTime_eq. cbv zeta. rewrite !low_bit.
    replace (Z.odd (h mod 172800)) with (Z.odd h).
    2:{ assert (E : (h mod 172800) mod 2 = h mod 2) by zdiv.
        rewrite !Zmod_odd in E.
        destruct (Z.odd h), (Z.odd (h mod 172800)); congruence. }
    replace ((h mod 172800 / 120) mod 60) with ((h / 120) mod 60) by zdiv.
    replace ((h mod 172800 / 7200) mod 12) with ((h / 7200) mod 12) by zdiv.
    replace ((h mod 172800 / 7200) mod 24) with ((h / 7200) mod 24) by zdiv.
    reflexivity.
  - unfold advance, u32. zdiv.
Qed.

Lemma day_wrap_can_wait_witness :
  exec (DisplayTime dev24 (172824 mod 172800)) power_on
  = exec (DisplayTime dev24 172824) power_on
  /\ advance (172824 mod 172800) = advance 172824.
Proof.
  apply (day_wrap_can_wait dev24 172824 power_on). lia.
Defined.

(** ** Voltage and temperature renderers within range *)

Lemma digit_with_point i :
  0 <= i < 10 ->
  Z.lor (glyph i) 0x80 = glyph i + 0x80 /\ Z.land (Z.lor (glyph i) 0x80) 0x7F = glyph i.
Proof.
  intros Hi.
  destruct (digit_cases i Hi) as [E|E]; repeat (destruct E as [E|E]); subst i;
    split; reflexivity.
Qed.

(** X11. Every reading below 5000, which includes every 12-bit result,
    is shown as a voltage below 10.0: slot 0 blank, slot 1 the tens digit
    of reading/50 with bit 7, the decimal point, added to its glyph, slot 2
    the units digit and slot 3 the V; the colon is off, the multiplexer is
    left on DACREF0 and the ADC disabled. *)
Theorem voltage_display (t : Tick) (s : State) :
  u16 (RES_DACREF0 t) < 5000 ->
  exists s',
    exec (DisplayVoltage t) s = Some s'
    /\ 0 <= u16 (RES_DACREF0 t) / 50 < 100
    /\ slots s' = [glyph Space; glyph (u16 (RES_DACREF0 t) / 50 / 10) + 0x80;
                   glyph (u16 (RES_DACREF0 t) / 50 mod 10); glyph Vee]
    /\ Z.land (get_OUT (Digit 1) s') 0x7F = glyph (u16 (RES_DACREF0 t) / 50 / 10)
    /\ PORTF_OUT s' = 0
    /\ ADC0_MUXPOS s' = ADC_MUXPOS_DACREF0_gc
    /\ ADC0_CTRLA s' = 0.
Proof.
  intros H. rewrite DisplayVoltage_eq. cbv zeta.
  assert (R : 0 <= u16 (RES_DACREF0 t) < 5000) by (split; [unfold u16; zdiv | exact H]).
  assert (V : voltage_of t = u16 (RES_DACREF0 t) / 50)
    by (unfold voltage_of; generalize dependent (u16 (RES_DACREF0 t));
        intros; unfold u16; zdiv).
  rewrite V. generalize dependent (u16 (RES_DACREF0 t)). intros r _ R _.
  assert (D1 : 0 <= r / 50 / 10 < 10) by zdiv.
  assert (D2 : 0 <= r / 50 mod 10 < 10) by zdiv.
  rewrite !Char_at_glyph by (apply in_table_iff; unfold CharLen; lia).
  destruct (digit_with_point _ D1) as [P1 P2].
  eexists. split; [reflexivity|]. split; [zdiv|].
  destruct s. cbn -[Z.div Z.modulo glyph Z.lor Z.land Z.add].
  rewrite P2, P1. repeat split.
Qed.

Lemma voltage_display_witness :
  exists s',
    exec (DisplayVoltage released) power_on = Some s'
    /\ 0 <= u16 (RES_DACREF0 released) / 50 < 100
    /\ slots s' = [glyph Space; glyph (u16 (RES_DACREF0 released) / 50 / 10) + 0x80;
                   glyph (u16 (RES_DACREF0 released) / 50 mod 10); glyph Vee]
    /\ Z.land (get_OUT (Digit 1) s') 0x7F
       = glyph (u16 (RES_DACREF0 released) / 50 / 10)
    /\ PORTF_OUT s' = 0
    /\ ADC0_MUXPOS s' = ADC_MUXPOS_DACREF0_gc
    /\ ADC0_CTRLA s' = 0.
Proof.
  apply (voltage_display released power_on). reflexivity.
Defined.

(** X10. For every kelvin from 273 up to 422 the temperature renderer
    returns: celsius is kelvin - 273 and slots 0 and 1 show the glyphs of
    its tens and of its last digit, with a leading 0 below 10 degrees and
    a non-digit glyph of the table in slot 0 from 100 degrees.  Slots 2
    and 3 hold the degree glyph and C, PF5 is set for segment a of the C
    and the colon is off; the multiplexer is left on the sensor and the
    ADC disabled. *)
Theorem temperature_display (d : Device) (t : Tick) (s : State) :
  273 <= tick_kelvin d t < 423 ->
  exists s',
    exec (DisplayTemp d t) s = Some s'
    /\ tick_celsius d t = tick_kelvin d t - 273
    /\ slots s' = [glyph ((tick_kelvin d t - 273) / 10);
                   glyph ((tick_kelvin d t - 273) mod 10);
                   glyph Degree; glyph Celsius]
    /\ PORTF_OUT s' = 0x20
    /\ ADC0_MUXPOS s' = ADC_MUXPOS_TEMPSENSE_gc
    /\ ADC0_CTRLA s' = 0.
Proof.
  intros H.
  assert (C : tick_celsius d t = tick_kelvin d t - 273).
  { unfold tick_celsius. apply celsius_of_eq. lia. }
  rewrite DisplayTemp_eq. cbv zeta. rewrite C.
  generalize dependent (tick_kelvin d t). intros k H _.
  rewrite Z.rem_mod_nonneg, Z.quot_div_nonneg by lia.
  assert (D : in_table ((k - 273) mod 10) = true)
    by (apply in_table_iff; unfold CharLen; zdiv).
  assert (D0 : in_table ((k - 273) / 10) = true)
    by (apply in_table_iff; unfold CharLen; zdiv).
  rewrite (Char_at_glyph _ D), (Char_at_glyph _ D0).
  destruct (Z.ltb_spec k 273) as [L|L]; [lia|].
  eexists. split; [reflexivity|]. destruct s. repeat split.
Qed.

Lemma temperature_display_witness :
  exists s',
    exec (DisplayTemp dev24 released) power_on = Some s'
    /\ tick_celsius dev24 released = tick_kelvin dev24 released - 273
    /\ slots s' = [glyph ((tick_kelvin dev24 released - 273) / 10);
                   glyph ((tick_kelvin dev24 released - 273) mod 10);
                   glyph Degree; glyph Celsius]
    /\ PORTF_OUT s' = 0x20
    /\ ADC0_MUXPOS s' = ADC_MUXPOS_TEMPSENSE_gc
    /\ ADC0_CTRLA s' = 0.
Proof.
  apply (temperature_display dev24 released power_on).
  split; [vm_compute; discriminate | reflexivity].
Defined.

(** X18. Below 273 kelvin [abs] does nothing, its operand being unsigned:
    celsius is kelvin - 273, negative, and slot 1 is read at the index
    celsius%10 = -((273 - kelvin) mod 10).  That is outside the table,
    and the renderer has no defined result, unless kelvin is a multiple of
    ten below 273, where the minus glyph and a 0 are shown. *)
Theorem below_freezing (d : Device) (t : Tick) (s : State) :
  tick_kelvin d t < 273 ->
  tick_celsius d t = tick_kelvin d t - 273
  /\ Z.rem (tick_celsius d t) 10 = - ((273 - tick_kelvin d t) mod 10)
  /\ match exec (DisplayTemp d t) s with
     | Some s' =>
       (273 - tick_kelvin d t) mod 10 = 0
       /\ slots s' = [glyph Minus; glyph 0; glyph Degree; glyph Celsius]
     | None => (273 - tick_kelvin d t) mod 10 <> 0
     end.
Proof.
  intros H. destruct (tick_kelvin_eq d t) as (_ & _ & P).
  assert (C : tick_celsius d t = tick_kelvin d t - 273).
  { unfold tick_celsius. apply celsius_of_eq. lia. }
  rewrite DisplayTemp_eq. cbv zeta. rewrite C.
  generalize dependent (tick_kelvin d t). intros k H P _.
  assert (R : Z.rem (k - 273) 10 = - ((273 - k) mod 10)).
  { replace (k - 273) with (- (273 - k)) by lia.
    rewrite Z.rem_opp_l, Z.rem_mod_nonneg by lia. reflexivity. }
  split; [reflexivity|]. split; [exact R|].
  rewrite R. destruct (Z.ltb_spec k 273) as [L|L]; [|lia].
  rewrite (Char_at_glyph Minus eq_refl).
  destruct (Z.eq_dec ((273 - k) mod 10) 0) as [E|E].
  - rewrite E. cbn [Z.opp]. rewrite (Char_at_glyph 0 eq_refl).
    split; [reflexivity|]. destruct s. reflexivity.
  - rewrite Char_at_outside; [exact E|].
    unfold in_table. apply andb_false_iff. left. apply Z.leb_gt. zdiv.
Qed.

Lemma below_freezing_witness :
  tick_kelvin dev24 (mkTick 0x0C 1650 2000) < 273
  /\ tick_celsius dev24 (mkTick 0x0C 1650 2000)
     = tick_kelvin dev24 (mkTick 0x0C 1650 2000) - 273.
Proof.
  split; [reflexivity|].
  exact (proj1 (below_freezing dev24 (mkTick 0x0C 1650 2000) power_on eq_refl)).
Defined.

(** X12. The conversion is monotone in the sample: with the slope fixed
    and samples that do not exceed the offset, a larger sample never gives
    a larger kelvin. *)
Theorem kelvin_monotone (offset slope sample1 sample2 : Z) :
  0 <= slope < 2 ^ 16 -> 0 <= sample1 <= sample2 -> sample2 <= offset < 2 ^ 16 ->
  kelvin_of offset slope sample2 <= kelvin_of offset slope sample1.
Proof.
  intros Hs H1 H2.
  destruct (kelvin_of_eq offset slope sample1 Hs) as [_ E1].
  destruct (kelvin_of_eq offset slope sample2 Hs) as [_ E2].
  rewrite E1, E2.
  replace ((offset - sample1) mod 2 ^ 16) with (offset - sample1) by zdiv.
  replace ((offset - sample2) mod 2 ^ 16) with (offset - sample2) by zdiv.
  apply Z.div_le_mono; [lia|].
  apply Z.add_le_mono_r. apply Z.mul_le_mono_nonneg_r; lia.
Qed.

Lemma kelvin_monotone_witness :
  kelvin_of 2000 1200 983 <= kelvin_of 2000 1200 900.
Proof.
  apply (kelvin_monotone 2000 1200 900 983); lia.
Defined.

(** X16. A sample above the offset does not give a negative difference:
    the 16-bit subtraction wraps, and kelvin is computed from
    65536 - (sample - offset). *)
Theorem sample_above_offset (offset slope sample : Z) :
  0 <= slope < 2 ^ 16 -> 0 <= offset < sample -> sample < 2 ^ 16 ->
  kelvin_of offset slope sample
  = ((2 ^ 16 - (sample - offset)) * slope + 0x0800) / 2 ^ 12.
Proof.
  intros Hs H1 H2.
  destruct (kelvin_of_eq offset slope sample Hs) as [_ E]. rewrite E.
  replace ((offset - sample) mod 2 ^ 16) with (2 ^ 16 - (sample - offset)) by zdiv.
  reflexivity.
Qed.

Lemma sample_above_offset_witness :
  kelvin_of 2000 1200 2001
  = ((2 ^ 16 - (2001 - 2000)) * 1200 + 0x0800) / 2 ^ 12.
Proof.
  apply (sample_above_offset 2000 1200 2001); lia.
Defined.

(** ** Elapsed time *)


